(** * findingPi: the Chudnovsky and Ramanujan-Sato estimators of pi

    A shallow embedding of the notebook [Chudnovsky.ipynb] and the proofs of
    its specification.

    The notebook is Python: integers are unbounded ([Z]), floats are IEEE 754
    binary64 (Rocq's primitive [float]), a variable may hold either
    ([sum_result] starts as the int [0] and becomes a float), arithmetic may
    raise, and [factorial] recurses as deep as its argument.  The embedding
    keeps all of that: values are [pyval], operators dispatch on the dynamic
    type as CPython does, exceptions are the [Raise] outcomes of a small
    monad, and the interpreter's recursion limit is the [limit] argument of
    [factorial].  The monad also records a ghost trace of loop iterations and
    [factorial] calls, which the termination statements read. *)

From Stdlib Require Import ZArith List Lia Bool Floats Arith.
Import ListNotations.

Set Warnings "-inexact-float".

Local Open Scope Z_scope.

(** ** Outcomes *)

(** The exceptions the notebook's operations raise.  [OutsideModel] is not a
    Python exception: it marks an argument of the C library's [pow] for which
    this development gives no value (see [Py.float_pow]). *)
Inductive exn : Type :=
| ZeroDivisionError
| OverflowError
| ValueError
| RecursionError
| OutsideModel.

Inductive result (A : Type) : Type :=
| Ok (a : A)
| Raise (e : exn).
Arguments Ok {A} a.
Arguments Raise {A} e.

Definition rbind {A B : Type} (r : result A) (f : A -> result B) : result B :=
  match r with
  | Ok a => f a
  | Raise e => Raise e
  end.

Definition rmap {A B : Type} (f : A -> B) (r : result A) : result B :=
  rbind r (fun a => Ok (f a)).

Declare Scope result_scope.
Delimit Scope result_scope with result.
Notation "'let?' x ':=' r 'in' k" := (rbind r (fun x => k))
  (at level 10, x name, r at level 100, k at level 200) : result_scope.

(** ** Python values and operators *)

Inductive pyval : Type :=
| PyInt (z : Z)
| PyFloat (f : float).

Module Py.
Local Open Scope result_scope.

(** Rounding to binary64, to nearest and ties to even, of the non-negative
    real [(q + d) * 2^e] where [0 <= d < 1] and [sticky] tells whether
    [d <> 0].  With [q] of 55 bits or more the sticky bit placed under [q]
    decides every rounding case, so the result is the correctly rounded
    value.  Rounding itself is the Standard Library's [binary_normalize]. *)
Definition round_sticky (negate : bool) (q : Z) (sticky : bool) (e : Z) : spec_float :=
  binary_normalize prec emax
    (cond_Zopp negate (2 * q + (if sticky then 1 else 0))) (e - 1) negate.

(** A rounded result that left the binary64 range is an [OverflowError]. *)
Definition finite_or_overflow (x : spec_float) : result float :=
  match x with
  | S754_infinity _ => Raise OverflowError
  | _ => Ok (SF2Prim x)
  end.

Definition signed_zero (negate : bool) : float :=
  if negate then neg_zero else zero.

(** [PyLong_AsDouble]: the nearest double, ties to even, and
    [OverflowError] ("int too large to convert to float"). *)
Definition int_to_float (z : Z) : result float :=
  finite_or_overflow (binary_normalize prec emax z 0 false).

(** Number of bits of a positive integer ([int.bit_length]). *)
Definition bit_length (n : Z) : Z := Z.log2 n + 1.

(** [int / int] ([long_true_divide]): the correctly rounded quotient.  As in
    CPython, a zero divisor raises, a zero dividend gives a signed zero, and
    the bit lengths of the operands settle the obvious overflows and
    underflows before any division is made. *)
Definition int_truediv (a b : Z) : result float :=
  if b =? 0 then Raise ZeroDivisionError
  else
    let negate := xorb (a <? 0) (b <? 0) in
    if a =? 0 then Ok (signed_zero negate)
    else
      let a' := Z.abs a in
      let b' := Z.abs b in
      let diff := bit_length a' - bit_length b' in
      if diff >? 1024 then Raise OverflowError
      else if diff <? -1075 then Ok (signed_zero negate)
      else
        let sh := Z.max 0 (64 - diff) in
        let n := a' * 2 ^ sh in
        finite_or_overflow
          (round_sticky negate (n / b') (negb (n mod b' =? 0)) (- sh)).

(** The correctly rounded square root of a positive integer. *)
Definition sqrt_round (n : Z) : result float :=
  let t := Z.max 0 (64 - Z.log2 n / 2) in
  let m := n * 4 ^ t in
  let q := Z.sqrt m in
  finite_or_overflow (round_sticky false q (negb (q * q =? m)) (- t)).

(** The integer a float is, when it is one. *)
Definition float_to_Z (f : float) : option Z :=
  match Prim2SF f with
  | S754_zero _ => Some 0
  | S754_finite s m e =>
      if 0 <=? e then Some (cond_Zopp s (Zpos m * 2 ^ e))
      else if Zpos m mod 2 ^ (- e) =? 0
           then Some (cond_Zopp s (Zpos m / 2 ^ (- e)))
           else None
  | _ => None
  end.

(** [float ** float] is the C library's [pow], which is not part of the
    notebook and which IEEE 754 does not pin down bit for bit.  It is
    modelled where the notebook uses it: a positive integer base and an
    exponent [y >= 0] with [2 * y] an integer, where [x ** y] is the square
    root of the integer [x ^ (2 * y)]; the model returns that value correctly
    rounded.  A result out of range is CPython's [OverflowError]
    ("Numerical result out of range"). *)
Definition float_pow (x y : float) : result float :=
  match float_to_Z x, float_to_Z (y + y)%float with
  | Some b, Some h =>
      if (0 <? b) && (0 <=? h) then sqrt_round (b ^ h)
      else Raise OutsideModel
  | _, _ => Raise OutsideModel
  end.

Definition as_float (v : pyval) : result float :=
  match v with
  | PyInt z => int_to_float z
  | PyFloat f => Ok f
  end.

(** [a + b] *)
Definition add (a b : pyval) : result pyval :=
  match a, b with
  | PyInt x, PyInt y => Ok (PyInt (x + y))
  | _, _ =>
      let? x := as_float a in
      let? y := as_float b in
      Ok (PyFloat (x + y)%float)
  end.

(** [a * b] *)
Definition mul (a b : pyval) : result pyval :=
  match a, b with
  | PyInt x, PyInt y => Ok (PyInt (x * y))
  | _, _ =>
      let? x := as_float a in
      let? y := as_float b in
      Ok (PyFloat (x * y)%float)
  end.

(** [a / b]: float division raises on a zero divisor of either sign. *)
Definition truediv (a b : pyval) : result pyval :=
  match a, b with
  | PyInt x, PyInt y => rmap PyFloat (int_truediv x y)
  | _, _ =>
      let? x := as_float a in
      let? y := as_float b in
      if is_zero y then Raise ZeroDivisionError
      else Ok (PyFloat (x / y)%float)
  end.

(** [a ** b]: exact on integers with a non-negative exponent, [pow]
    otherwise. *)
Definition pow (a b : pyval) : result pyval :=
  match a, b with
  | PyInt x, PyInt y =>
      if 0 <=? y then Ok (PyInt (x ^ y))
      else
        let? fx := int_to_float x in
        let? fy := int_to_float y in
        rmap PyFloat (float_pow fx fy)
  | _, _ =>
      let? x := as_float a in
      let? y := as_float b in
      rmap PyFloat (float_pow x y)
  end.

(** [math.sqrt(a)] *)
Definition math_sqrt (a : pyval) : result pyval :=
  let? x := as_float a in
  if (x <? 0)%float then Raise ValueError
  else Ok (PyFloat (sqrt x)).

(** [math.pi] *)
Definition math_pi : float := 0x1.921fb54442d18p+1%float.

End Py.

(** ** The monad of the notebook's functions *)

(** Ghost events: a loop body entered with index [k], [factorial] entered
    with argument [n].  The trace holds the most recent event first. *)
Inductive event : Type :=
| EvIter (k : Z)
| EvCall (n : Z).

Definition trace : Type := list event.

Definition M (A : Type) : Type := trace -> trace * result A.

Definition ret {A : Type} (a : A) : M A := fun tr => (tr, Ok a).

Definition raise {A : Type} (e : exn) : M A := fun tr => (tr, Raise e).

Definition lift {A : Type} (r : result A) : M A := fun tr => (tr, r).

Definition emit (ev : event) : M unit := fun tr => (ev :: tr, Ok tt).

Definition bind {A B : Type} (m : M A) (f : A -> M B) : M B :=
  fun tr =>
    match m tr with
    | (tr', Ok a) => f a tr'
    | (tr', Raise e) => (tr', Raise e)
    end.

Declare Scope py_scope.
Delimit Scope py_scope with py.
Notation "x <- m ;; k" := (bind m (fun x => k))
  (at level 100, m at next level, right associativity) : py_scope.
Notation "m ;;; k" := (bind m (fun _ => k))
  (at level 100, right associativity) : py_scope.

(** A call from the notebook's top level: empty trace at entry. *)
Definition run {A : Type} (m : M A) : trace * result A := m [].
Definition result_of {A : Type} (m : M A) : result A := snd (run m).
Definition trace_of {A : Type} (m : M A) : trace := fst (run m).

Local Open Scope py_scope.

(** ** factorial

<<
def factorial(n):
    if n == 0:
        return 1
    return n * factorial(n - 1)
>>
    [limit] is the number of frames the interpreter still allows: a call with
    none left raises [RecursionError] before the body runs.  Both code cells
    of the notebook define this same function. *)
Fixpoint factorial (limit : nat) (n : Z) : M Z :=
  match limit with
  | O => raise RecursionError
  | S limit' =>
      emit (EvCall n) ;;;
      if n =? 0 then ret 1
      else
        r <- factorial limit' (n - 1) ;;
        ret (n * r)
  end.

(** [for k in range(n): acc = body(k, acc)] *)
Fixpoint for_loop (body : Z -> pyval -> M pyval) (count : nat) (k : Z)
    (acc : pyval) : M pyval :=
  match count with
  | O => ret acc
  | S count' =>
      acc' <- body k acc ;;
      for_loop body count' (k + 1) acc'
  end.

Definition for_range (body : Z -> pyval -> M pyval) (n : Z) (acc : pyval) : M pyval :=
  for_loop body (Z.to_nat n) 0 acc.

(** ** Closed forms the statements are written with *)

(** [n!] as an integer. *)
Fixpoint zfact (n : nat) : Z :=
  match n with
  | O => 1
  | S m => Z.of_nat n * zfact m
  end.

(** The sign [(-1)^k] read off the parity of [k]. *)
Definition parity_sign (k : Z) : Z := if Z.even k then 1 else -1.

(** The events of a returning call [factorial(n)]: the arguments
    [n, n-1, ..., 0], the last one entered first in the list. *)
Fixpoint call_events (n : nat) : trace :=
  match n with
  | O => [EvCall 0]
  | S m => call_events m ++ [EvCall (Z.of_nat n)]
  end.

(** The events of [limit] nested calls that start at [n] and never return. *)
Fixpoint descent (limit : nat) (n : Z) : trace :=
  match limit with
  | O => []
  | S limit' => descent limit' (n - 1) ++ [EvCall n]
  end.

Definition is_iter (ev : event) : bool :=
  match ev with
  | EvIter _ => true
  | EvCall _ => false
  end.

(** Number of loop iterations a trace records. *)
Definition iterations (tr : trace) : nat := length (filter is_iter tr).

(** Every [factorial] call of the trace has a non-negative argument. *)
Definition calls_nonneg (tr : trace) : Prop :=
  forall n, In (EvCall n) tr -> 0 <= n.

(** One step of a sum of doubles: the first term that raises ends the sum. *)
Definition sum_step (term : nat -> result float) (acc : result float) (k : nat)
    : result float :=
  rbind acc (fun s => rbind (term k) (fun t => Ok (s + t)%float)).

(** The sum of the terms [0 .. k_max - 1], accumulated from [0.0] in index
    order. *)
Definition sum_terms (term : nat -> result float) (k_max : nat) : result float :=
  fold_left (sum_step term) (seq 0 k_max) (Ok zero).

(** [1 / x] in doubles. *)
Definition reciprocal (x : float) : result float :=
  if is_zero x then Raise ZeroDivisionError else Ok (1 / x)%float.

(** ** The Chudnovsky estimator (first code cell)

<<
def estimate_pi(num_terms):
    sum_result = 0
    for k in range(num_terms):
        numerator = (-1)**k * factorial(6*k) * (545140134*k + 13591409)
        denominator = factorial(3*k) * (factorial(k)**3) * (640320**(3*k + 3/2))
        sum_result += numerator / denominator
    return 1 / (12 * sum_result)
>> *)
Module Chudnovsky.

Definition loop_body (limit : nat) (k : Z) (sum_result : pyval) : M pyval :=
  emit (EvIter k) ;;;
  sign <- lift (Py.pow (PyInt (-1)) (PyInt k)) ;;
  f6 <- factorial limit (6 * k) ;;
  n1 <- lift (Py.mul sign (PyInt f6)) ;;
  numerator <- lift (Py.mul n1 (PyInt (545140134 * k + 13591409))) ;;
  f3 <- factorial limit (3 * k) ;;
  fk <- factorial limit k ;;
  fk3 <- lift (Py.pow (PyInt fk) (PyInt 3)) ;;
  d1 <- lift (Py.mul (PyInt f3) fk3) ;;
  half3 <- lift (Py.truediv (PyInt 3) (PyInt 2)) ;;
  expo <- lift (Py.add (PyInt (3 * k)) half3) ;;
  p <- lift (Py.pow (PyInt 640320) expo) ;;
  denominator <- lift (Py.mul d1 p) ;;
  term <- lift (Py.truediv numerator denominator) ;;
  lift (Py.add sum_result term).

Definition estimate_pi (limit : nat) (num_terms : Z) : M pyval :=
  sum_result <- for_range (loop_body limit) num_terms (PyInt 0) ;;
  d <- lift (Py.mul (PyInt 12) sum_result) ;;
  lift (Py.truediv (PyInt 1) d).

Local Open Scope result_scope.

(** The term of index [k] as the specification writes it,
    [(-1)^k (6k)! (545140134 k + 13591409) / ((3k)! (k!)^3 640320^(3k + 1.5))],
    the sign taken from the parity of [k], the integer products exact, and
    the power, the product with it and the quotient in doubles. *)
Definition term (k : nat) : result float :=
  let kz := Z.of_nat k in
  let numerator :=
    parity_sign kz * zfact (6 * k) * (545140134 * kz + 13591409) in
  let d1 := zfact (3 * k) * zfact k ^ 3 in
  let? e := Py.int_to_float (3 * kz) in
  let? p := Py.float_pow 640320 (e + 1.5) in
  let? d := Py.int_to_float d1 in
  let? n := Py.int_to_float numerator in
  if is_zero (d * p) then Raise ZeroDivisionError
  else Ok (n / (d * p))%float.

(** [S], the sum of the terms [0 .. k_max - 1]. *)
Definition series_sum (k_max : nat) : result float := sum_terms term k_max.

(** [1 / (12 * S)] *)
Definition series_pi (k_max : nat) : result float :=
  let? s := series_sum k_max in
  reciprocal (12 * s).

(** The events of iteration [k]: the loop body is entered, then
    [factorial] is called on [6k], [3k] and [k]. *)
Definition iter_events (k : nat) : trace :=
  call_events k ++ call_events (3 * k) ++ call_events (6 * k)
    ++ [EvIter (Z.of_nat k)].

End Chudnovsky.

(** ** The Ramanujan-Sato estimator (second code cell)

<<
def estimate_pi(num_terms):
    sum_result = 0
    for k in range(num_terms):
        numerator = factorial(4*k) * (1103 + 26390*k)
        denominator = (factorial(k)**4) * (396**(4*k))
        sum_result += numerator / denominator
    factor = (2 * math.sqrt(2)) / 9801
    pi_inverse = factor * sum_result
    return 1 / pi_inverse
>> *)
Module Ramanujan.

Definition loop_body (limit : nat) (k : Z) (sum_result : pyval) : M pyval :=
  emit (EvIter k) ;;;
  f4 <- factorial limit (4 * k) ;;
  numerator <- lift (Py.mul (PyInt f4) (PyInt (1103 + 26390 * k))) ;;
  fk <- factorial limit k ;;
  fk4 <- lift (Py.pow (PyInt fk) (PyInt 4)) ;;
  p <- lift (Py.pow (PyInt 396) (PyInt (4 * k))) ;;
  denominator <- lift (Py.mul fk4 p) ;;
  term <- lift (Py.truediv numerator denominator) ;;
  lift (Py.add sum_result term).

Definition estimate_pi (limit : nat) (num_terms : Z) : M pyval :=
  sum_result <- for_range (loop_body limit) num_terms (PyInt 0) ;;
  root <- lift (Py.math_sqrt (PyInt 2)) ;;
  twice <- lift (Py.mul (PyInt 2) root) ;;
  factor <- lift (Py.truediv twice (PyInt 9801)) ;;
  pi_inverse <- lift (Py.mul factor sum_result) ;;
  lift (Py.truediv (PyInt 1) pi_inverse).

Local Open Scope result_scope.

(** The term of index [k] as the specification writes it,
    [(4k)! (1103 + 26390 k) / ((k!)^4 396^(4k))]: a quotient of two exact
    integers, rounded once. *)
Definition term (k : nat) : result float :=
  let kz := Z.of_nat k in
  Py.int_truediv (zfact (4 * k) * (1103 + 26390 * kz))
                 (zfact k ^ 4 * 396 ^ (4 * kz)).

(** [S], the sum of the terms [0 .. k_max - 1]. *)
Definition series_sum (k_max : nat) : result float := sum_terms term k_max.

(** The factor [2 * sqrt 2 / 9801] in doubles. *)
Definition factor : float := (2 * sqrt 2 / 9801)%float.

(** [1 / ((2 * sqrt 2 / 9801) * S)] *)
Definition series_pi (k_max : nat) : result float :=
  let? s := series_sum k_max in
  reciprocal (factor * s).

(** The events of iteration [k]: the loop body is entered, then
    [factorial] is called on [4k] and [k]. *)
Definition iter_events (k : nat) : trace :=
  call_events k ++ call_events (4 * k) ++ [EvIter (Z.of_nat k)].

End Ramanujan.

(** The events of the iterations [i, i + 1, ..., i + count - 1]; an
    iteration whose term raises is the last one. *)
Fixpoint loop_events (term : nat -> result float) (iter_events : nat -> trace)
    (i count : nat) : trace :=
  match count with
  | O => []
  | S count' =>
      match term i with
      | Ok _ => loop_events term iter_events (S i) count' ++ iter_events i
      | Raise _ => iter_events i
      end
  end.

(** The value of [sum_result] after [i] iterations whose sum is [s]: the
    int [0] before the first iteration, a float afterwards. *)
Definition sum_value (i : nat) (s : float) : pyval :=
  match i with
  | O => PyInt 0
  | S _ => PyFloat s
  end.

(** The notebook's [abs(pi_estimate - math.pi)]. *)
Definition abs_error (r : result pyval) : option float :=
  match r with
  | Ok (PyFloat f) => Some (abs (f - Py.math_pi))
  | _ => None
  end.

(** [error(n + 1) <= error(n)], for the results of two calls. *)
Definition error_not_worse (r r' : result pyval) : bool :=
  match abs_error r, abs_error r' with
  | Some e, Some e' => (e' <=? e)%float
  | _, _ => false
  end.

(** Number of [factorial] calls a trace records, recursive ones included. *)
Definition calls (tr : trace) : nat :=
  length (filter (fun ev => negb (is_iter ev)) tr).

(** * Proofs *)

(** ** The monad *)

Lemma bind_ok {A B : Type} (m : M A) (f : A -> M B) tr tr' a :
  m tr = (tr', Ok a) -> bind m f tr = f a tr'.
Proof. intros H. unfold bind. now rewrite H. Qed.

Lemma bind_raise {A B : Type} (m : M A) (f : A -> M B) tr tr' e :
  m tr = (tr', Raise e) -> bind m f tr = (tr', Raise e).
Proof. intros H. unfold bind. now rewrite H. Qed.

Lemma bind_ok_or_raise {A B : Type} (m : M A) (f : A -> M B) tr tr' r :
  m tr = (tr', r) ->
  bind m f tr =
  match r with
  | Ok a => f a tr'
  | Raise e => (tr', Raise e)
  end.
Proof. intros H. unfold bind. now rewrite H. Qed.

Lemma bind_emit {B : Type} ev (f : unit -> M B) tr :
  bind (emit ev) f tr = f tt (ev :: tr).
Proof. reflexivity. Qed.

Lemma bind_lift {A B : Type} (r : result A) (f : A -> M B) tr :
  bind (lift r) f tr =
  match r with
  | Ok a => f a tr
  | Raise e => (tr, Raise e)
  end.
Proof. reflexivity. Qed.

(** ** Closed forms *)

Lemma zfact_fact n : zfact n = Z.of_nat (fact n).
Proof.
  induction n as [|n IH]; [reflexivity|].
  change (zfact (S n)) with (Z.of_nat (S n) * zfact n).
  change (fact (S n)) with (S n * fact n)%nat.
  now rewrite IH, Nat2Z.inj_mul.
Qed.

Lemma zfact_pos n : 0 < zfact n.
Proof.
  induction n as [|n IH]; [reflexivity|].
  change (zfact (S n)) with (Z.of_nat (S n) * zfact n). lia.
Qed.

Lemma parity_sign_pow k : 0 <= k -> (-1) ^ k = parity_sign k.
Proof.
  intros Hk. unfold parity_sign.
  destruct (Z.even k) eqn:E.
  - apply Z.even_spec in E.
    change (-1) with (- (1)). rewrite Z.pow_opp_even by assumption.
    apply Z.pow_1_l; assumption.
  - assert (O : Z.odd k = true) by (rewrite <- Z.negb_even, E; reflexivity).
    apply Z.odd_spec in O.
    change (-1) with (- (1)). rewrite Z.pow_opp_odd by assumption.
    rewrite Z.pow_1_l by assumption. reflexivity.
Qed.

Lemma iterations_app tr1 tr2 :
  iterations (tr1 ++ tr2) = (iterations tr1 + iterations tr2)%nat.
Proof. unfold iterations. now rewrite filter_app, length_app. Qed.

Lemma iterations_call_events n : iterations (call_events n) = 0%nat.
Proof.
  induction n as [|n IH]; [reflexivity|].
  cbn [call_events]. rewrite iterations_app, IH. reflexivity.
Qed.

Lemma calls_nonneg_nil : calls_nonneg [].
Proof. intros n []. Qed.

Lemma calls_nonneg_app tr1 tr2 :
  calls_nonneg tr1 -> calls_nonneg tr2 -> calls_nonneg (tr1 ++ tr2).
Proof.
  intros H1 H2 n Hin. apply in_app_or in Hin. destruct Hin; auto.
Qed.

Lemma calls_nonneg_iter k : calls_nonneg [EvIter k].
Proof. intros n [H|[]]. discriminate. Qed.

Lemma calls_nonneg_call_events n : calls_nonneg (call_events n).
Proof.
  induction n as [|n IH].
  - intros m [H|[]]. injection H as <-. lia.
  - cbn [call_events]. apply calls_nonneg_app; [assumption|].
    intros m [H|[]]. injection H as <-. lia.
Qed.

Lemma length_call_events n : length (call_events n) = S n.
Proof.
  induction n as [|n IH]; [reflexivity|].
  cbn [call_events]. rewrite length_app, IH. cbn. lia.
Qed.

Lemma length_descent limit n : length (descent limit n) = limit.
Proof.
  revert n. induction limit as [|l IH]; intros n; [reflexivity|].
  cbn [descent]. rewrite length_app, IH. cbn. lia.
Qed.

Lemma descent_bounds limit n m :
  In (EvCall m) (descent limit n) -> n - Z.of_nat limit < m <= n.
Proof.
  revert n. induction limit as [|l IH]; intros n Hin; [destruct Hin|].
  cbn [descent] in Hin. apply in_app_or in Hin. destruct Hin as [Hin|[Hin|[]]].
  - apply IH in Hin. lia.
  - injection Hin as <-. lia.
Qed.

(** ** factorial *)

(** With a frame for each of the [n + 1] calls, [factorial n] returns [n!]
    after calling itself on [n - 1], ..., [0]. *)
Lemma factorial_run limit n tr :
  (n < limit)%nat ->
  factorial limit (Z.of_nat n) tr = (call_events n ++ tr, Ok (zfact n)).
Proof.
  revert limit tr. induction n as [|n IH]; intros limit tr Hlt.
  - destruct limit as [|l]; [lia|]. reflexivity.
  - destruct limit as [|l]; [lia|].
    cbn [factorial]. rewrite bind_emit.
    replace (Z.of_nat (S n) =? 0) with false by (symmetry; apply Z.eqb_neq; lia).
    replace (Z.of_nat (S n) - 1) with (Z.of_nat n) by lia.
    rewrite (bind_ok _ _ _ _ _ (IH l _ ltac:(lia))).
    cbn [call_events zfact]. unfold ret. now rewrite <- app_assoc.
Qed.

(** On a negative argument the base case is never met: every available
    frame is used and the call ends in [RecursionError]. *)
Lemma factorial_descent limit n tr :
  n < 0 ->
  factorial limit n tr = (descent limit n ++ tr, Raise RecursionError).
Proof.
  revert n tr. induction limit as [|l IH]; intros n tr Hn; [reflexivity|].
  cbn [factorial]. rewrite bind_emit.
  replace (n =? 0) with false by (symmetry; apply Z.eqb_neq; lia).
  rewrite (bind_raise _ _ _ _ _ (IH (n - 1) _ ltac:(lia))).
  cbn [descent]. now rewrite <- app_assoc.
Qed.

(** Too few frames for a non-negative argument: [RecursionError] as well. *)
Lemma factorial_shallow limit n tr :
  (limit <= n)%nat ->
  snd (factorial limit (Z.of_nat n) tr) = Raise RecursionError.
Proof.
  revert n tr. induction limit as [|l IH]; intros n tr Hle; [reflexivity|].
  destruct n as [|n]; [lia|].
  cbn [factorial]. rewrite bind_emit.
  replace (Z.of_nat (S n) =? 0) with false by (symmetry; apply Z.eqb_neq; lia).
  replace (Z.of_nat (S n) - 1) with (Z.of_nat n) by lia.
  specialize (IH n (EvCall (Z.of_nat (S n)) :: tr) ltac:(lia)).
  unfold bind. destruct (factorial l (Z.of_nat n) _) as [tr' [a|e]];
    cbn in IH |- *; congruence.
Qed.

(** C3. For every integer [n >= 0], [factorial(n)] returns the exact
    integer [n!] (the call needs [n + 1] frames); in particular
    [factorial(0) = 1] and [factorial(5) = 120]. *)
Theorem factorial_returns_exact_factorial :
  (forall (limit : nat) (n : Z),
      0 <= n -> n < Z.of_nat limit ->
      result_of (factorial limit n) = Ok (Z.of_nat (fact (Z.to_nat n))))
  /\ (forall limit : nat, (0 < limit)%nat -> result_of (factorial limit 0) = Ok 1)
  /\ (forall limit : nat, (5 < limit)%nat -> result_of (factorial limit 5) = Ok 120).
Proof.
  assert (G : forall (limit : nat) (n : Z),
             0 <= n -> n < Z.of_nat limit ->
             result_of (factorial limit n) = Ok (Z.of_nat (fact (Z.to_nat n)))).
  { intros limit n Hn Hlt. unfold result_of, run.
    rewrite <- (Z2Nat.id n) at 1 by assumption.
    rewrite factorial_run by lia. cbn [snd]. now rewrite zfact_fact. }
  split; [exact G|]. split; intros limit Hl.
  - rewrite (G limit 0) by lia. reflexivity.
  - rewrite (G limit 5) by lia. reflexivity.
Qed.

Lemma factorial_returns_exact_factorial_witness :
  result_of (factorial 1000 6) = Ok (Z.of_nat (fact (Z.to_nat 6)))
  /\ result_of (factorial 1 0) = Ok 1
  /\ result_of (factorial 6 5) = Ok 120.
Proof.
  destruct factorial_returns_exact_factorial as (H1 & H2 & H3).
  split; [|split].
  - apply (H1 1000%nat 6); lia.
  - apply (H2 1%nat); lia.
  - apply (H3 6%nat); lia.
Defined.

(** C4, as the claim states it, fails at [n = -1]: under a recursion limit
    of 1000 the call is not rejected on entry; it makes 1000 nested calls
    and ends in [RecursionError]. *)
Lemma factorial_negative_not_rejected :
  ~ (result_of (factorial 1000 (-1)) = Raise ValueError
     /\ trace_of (factorial 1000 (-1)) = []).
Proof.
  intros [H _]. unfold result_of, run in H.
  rewrite factorial_descent in H by lia. discriminate H.
Qed.

(** C4, amended. For every integer [n < 0] and every recursion limit,
    [factorial(n)] makes no argument check: it calls itself on [n - 1],
    [n - 2], ... without reaching the base case, uses every frame it is
    allowed and ends in [RecursionError]; it returns no value and raises no
    invalid-argument error. *)
Theorem factorial_negative_exhausts_recursion :
  forall (limit : nat) (n : Z),
    n < 0 ->
    result_of (factorial limit n) = Raise RecursionError
    /\ result_of (factorial limit n) <> Raise ValueError
    /\ length (trace_of (factorial limit n)) = limit
    /\ (forall m, In (EvCall m) (trace_of (factorial limit n)) ->
                  n - Z.of_nat limit < m <= n).
Proof.
  intros limit n Hn. unfold result_of, trace_of, run.
  rewrite factorial_descent by assumption. cbn [fst snd].
  rewrite app_nil_r. repeat split.
  - discriminate.
  - apply length_descent.
  - apply descent_bounds in H. lia.
  - apply descent_bounds in H. lia.
Qed.

Lemma factorial_negative_exhausts_recursion_witness :
  result_of (factorial 1000 (-1)) = Raise RecursionError
  /\ result_of (factorial 1000 (-1)) <> Raise ValueError
  /\ length (trace_of (factorial 1000 (-1))) = 1000%nat
  /\ (forall m, In (EvCall m) (trace_of (factorial 1000 (-1))) ->
                -1 - Z.of_nat 1000 < m <= -1).
Proof. apply (factorial_negative_exhausts_recursion 1000 (-1)). lia. Defined.

(** ** Python operators on the values the notebook passes *)

Lemma int_to_float_0 : Py.int_to_float 0 = Ok zero.
Proof. reflexivity. Qed.

Lemma int_to_float_1 : Py.int_to_float 1 = Ok one.
Proof. reflexivity. Qed.

Lemma int_to_float_12 : Py.int_to_float 12 = Ok 12%float.
Proof. reflexivity. Qed.

Lemma int_to_float_640320 : Py.int_to_float 640320 = Ok 640320%float.
Proof. reflexivity. Qed.

Lemma int_truediv_3_2 : Py.int_truediv 3 2 = Ok 1.5%float.
Proof. reflexivity. Qed.

(** The rounding of [int_truediv] and [sqrt_round] is the processor's: on
    operands that are doubles themselves they agree with the IEEE division
    and square root, bit for bit. *)
Example int_truediv_agrees_with_float_division :
  let range := map (fun n => Z.of_nat n - 40) (seq 0 81) in
  forallb (fun a =>
    forallb (fun b =>
      (b =? 0)
      || match Py.int_truediv a b, Py.int_to_float a, Py.int_to_float b with
         | Ok q, Ok x, Ok y => Leibniz.eqb q (x / y)
         | _, _, _ => false
         end) range) range
  = true.
Proof. vm_compute. reflexivity. Qed.

Example sqrt_round_agrees_with_float_sqrt :
  forallb (fun n =>
    match Py.sqrt_round n, Py.int_to_float n with
    | Ok q, Ok x => Leibniz.eqb q (sqrt x)
    | _, _ => false
    end) (map (fun n => Z.of_nat n + 1) (seq 0 2000)
          ++ map (fun n => 2 ^ 52 - 1000 + Z.of_nat n) (seq 0 2000))
  = true.
Proof. vm_compute. reflexivity. Qed.

(** Edge cases of the conversions, as CPython has them. *)
Example rounding_edge_cases :
  Py.int_truediv 0 (-1) = Ok neg_zero
  /\ Py.int_truediv 1 0 = Raise ZeroDivisionError
  /\ Py.int_truediv (2 ^ 1024 - 1) 1 = Raise OverflowError
  /\ Py.int_truediv 1 (2 ^ 1075) = Ok zero
  /\ Py.int_truediv 1 (2 ^ 1075 - 1) = Ok 0x1p-1074%float
  /\ Py.int_to_float (2 ^ 53 + 1) = Ok 0x1p+53%float
  /\ Py.int_to_float (2 ^ 1024 - 2 ^ 970) = Raise OverflowError
  /\ Py.int_to_float (2 ^ 1024 - 2 ^ 970 - 1) = Ok 0x1.fffffffffffffp+1023%float
  /\ Py.float_pow 640320 1.5 = Ok 0x1.e8a5c2ffef9e8p+28%float
  /\ Py.float_pow 640320 52.5 = Ok 0x1.8fb24f39dac11p+1012%float
  /\ Py.float_pow 640320 55.5 = Raise OverflowError.
Proof. repeat split; vm_compute; reflexivity. Qed.

Lemma pow_int_nonneg x y : 0 <= y -> Py.pow (PyInt x) (PyInt y) = Ok (PyInt (x ^ y)).
Proof.
  intros Hy. unfold Py.pow.
  replace (0 <=? y) with true by (symmetry; apply Z.leb_le; assumption).
  reflexivity.
Qed.

(** The sign [(-1)**k] is an exact integer, [1] for even [k] and [-1] for
    odd [k]: no floating-point power is taken. *)
Lemma pow_minus_one k :
  0 <= k -> Py.pow (PyInt (-1)) (PyInt k) = Ok (PyInt (parity_sign k)).
Proof. intros Hk. rewrite pow_int_nonneg, parity_sign_pow by assumption. reflexivity. Qed.

Lemma add_sum_value i s t :
  (i = 0%nat -> s = zero) ->
  Py.add (sum_value i s) (PyFloat t) = Ok (sum_value (S i) (s + t)%float).
Proof.
  intros Hs. destruct i as [|i]; cbn [sum_value].
  - rewrite Hs by reflexivity. reflexivity.
  - reflexivity.
Qed.

(** ** The loop *)

Lemma sum_step_raise term e l : fold_left (sum_step term) l (Raise e) = Raise e.
Proof. induction l as [|k l IH]; [reflexivity|]. exact IH. Qed.

Lemma sum_terms_S term n :
  sum_terms term (S n) = sum_step term (sum_terms term n) n.
Proof. unfold sum_terms. now rewrite seq_S, fold_left_app. Qed.

Lemma for_loop_app body c1 c2 k acc tr :
  for_loop body (c1 + c2) k acc tr =
  bind (for_loop body c1 k acc)
       (fun acc' => for_loop body c2 (k + Z.of_nat c1) acc') tr.
Proof.
  revert k acc tr. induction c1 as [|c1 IH]; intros k acc tr.
  - cbn [for_loop Nat.add]. unfold bind, ret. now rewrite Z.add_0_r.
  - cbn [for_loop Nat.add]. unfold bind in IH |- *.
    destruct (body k acc tr) as [tr' [acc'|e]]; [|reflexivity].
    rewrite IH.
    replace (k + 1 + Z.of_nat c1) with (k + Z.of_nat (S c1)) by lia.
    reflexivity.
Qed.

Section Loop.

Variable body : Z -> pyval -> M pyval.
Variable term : nat -> result float.
Variable iter_events : nat -> trace.
Variable bound : nat.

(** What an iteration below [bound] does: it leaves its events and adds
    its term to the sum, or raises what the term raises. *)
Hypothesis body_run :
  forall k acc tr,
    (k < bound)%nat ->
    body (Z.of_nat k) acc tr =
    (iter_events k ++ tr, rbind (term k) (fun t => Py.add acc (PyFloat t))).

Lemma for_loop_run count :
  forall i s tr,
    (i + count <= bound)%nat ->
    (i = 0%nat -> s = zero) ->
    for_loop body count (Z.of_nat i) (sum_value i s) tr =
    (loop_events term iter_events i count ++ tr,
     rmap (sum_value (i + count))
          (fold_left (sum_step term) (seq i count) (Ok s))).
Proof.
  induction count as [|c IH]; intros i s tr Hb Hs.
  - cbn. now rewrite Nat.add_0_r.
  - cbn [for_loop loop_events seq fold_left].
    unfold bind. rewrite body_run by lia.
    unfold sum_step at 2. cbn [rbind].
    destruct (term i) as [t|e]; cbn [rbind].
    + rewrite add_sum_value by assumption.
      replace (Z.of_nat i + 1) with (Z.of_nat (S i)) by lia.
      rewrite IH by (lia || discriminate).
      rewrite <- app_assoc. now rewrite Nat.add_succ_r.
    + now rewrite sum_step_raise.
Qed.

Lemma for_range_run n tr :
  (Z.to_nat n <= bound)%nat ->
  for_range body n (PyInt 0) tr =
  (loop_events term iter_events 0 (Z.to_nat n) ++ tr,
   rmap (sum_value (Z.to_nat n)) (sum_terms term (Z.to_nat n))).
Proof.
  intros Hb. unfold for_range.
  change (PyInt 0) with (sum_value 0 zero). change 0 with (Z.of_nat 0).
  now rewrite for_loop_run by (lia || reflexivity).
Qed.

(** A loop of more than [bound] iterations whose sum raises within the
    first [bound] stops there. *)
Lemma for_range_aborts n e tr :
  (bound <= Z.to_nat n)%nat ->
  sum_terms term bound = Raise e ->
  for_range body n (PyInt 0) tr =
  (loop_events term iter_events 0 bound ++ tr, Raise e).
Proof.
  intros Hb He. unfold for_range.
  replace (Z.to_nat n) with (bound + (Z.to_nat n - bound))%nat by lia.
  rewrite for_loop_app.
  change (PyInt 0) with (sum_value 0 zero). change 0 with (Z.of_nat 0) at 1.
  apply bind_raise.
  rewrite for_loop_run by (lia || reflexivity).
  cbn [Nat.add]. fold (sum_terms term bound). now rewrite He.
Qed.

Hypothesis iter_events_iterations : forall k, iterations (iter_events k) = 1%nat.
Hypothesis iter_events_nonneg : forall k, calls_nonneg (iter_events k).

Lemma loop_events_nonneg count : forall i, calls_nonneg (loop_events term iter_events i count).
Proof.
  induction count as [|c IH]; intros i; cbn [loop_events].
  - apply calls_nonneg_nil.
  - destruct (term i); [apply calls_nonneg_app|]; auto.
Qed.

(** When no term raises, every iteration is run. *)
Lemma loop_events_iterations count :
  forall i,
    (forall k, (i <= k < i + count)%nat -> exists t, term k = Ok t) ->
    iterations (loop_events term iter_events i count) = count.
Proof.
  induction count as [|c IH]; intros i Hok; [reflexivity|].
  cbn [loop_events]. destruct (Hok i ltac:(lia)) as [t Ht]. rewrite Ht.
  rewrite iterations_app, iter_events_iterations, IH; [lia|].
  intros k Hk. apply Hok. lia.
Qed.

Lemma loop_events_iterations_le count :
  forall i, (iterations (loop_events term iter_events i count) <= count)%nat.
Proof.
  induction count as [|c IH]; intros i; [reflexivity|].
  cbn [loop_events]. destruct (term i).
  - rewrite iterations_app, iter_events_iterations. specialize (IH (S i)). lia.
  - rewrite iter_events_iterations. lia.
Qed.

End Loop.

(** ** The loop bodies *)

Lemma mul_int x y : Py.mul (PyInt x) (PyInt y) = Ok (PyInt (x * y)).
Proof. reflexivity. Qed.

Lemma factorial_scaled limit c k tr :
  (c * k < limit)%nat ->
  factorial limit (Z.of_nat c * Z.of_nat k) tr =
  (call_events (c * k) ++ tr, Ok (zfact (c * k))).
Proof. intros H. rewrite <- Nat2Z.inj_mul. now apply factorial_run. Qed.

(** One step of symbolic execution: a pure operator whose value is known,
    or a call of [factorial] with frames to spare. *)
Ltac step :=
  first
    [ rewrite bind_emit
    | rewrite bind_lift, ?mul_int, ?pow_int_nonneg by lia; cbv beta iota
    | erewrite bind_ok by (apply factorial_scaled; lia)
    | erewrite bind_ok by (apply factorial_run; lia) ].

Lemma truediv_3_2 : Py.truediv (PyInt 3) (PyInt 2) = Ok (PyFloat 1.5).
Proof. reflexivity. Qed.

Lemma add_int_float x f :
  Py.add (PyInt x) (PyFloat f) =
  rbind (Py.int_to_float x) (fun e => Ok (PyFloat (e + f))).
Proof. reflexivity. Qed.

Lemma pow_640320 y :
  Py.pow (PyInt 640320) (PyFloat y) = rmap PyFloat (Py.float_pow 640320 y).
Proof. reflexivity. Qed.

Lemma mul_int_float x f :
  Py.mul (PyInt x) (PyFloat f) =
  rbind (Py.int_to_float x) (fun d => Ok (PyFloat (d * f))).
Proof. reflexivity. Qed.

Lemma truediv_int_float x f :
  Py.truediv (PyInt x) (PyFloat f) =
  rbind (Py.int_to_float x)
        (fun n => if is_zero f then Raise ZeroDivisionError
                  else Ok (PyFloat (n / f))).
Proof. reflexivity. Qed.

Lemma chudnovsky_body_run limit k acc tr :
  (6 * k < limit)%nat ->
  Chudnovsky.loop_body limit (Z.of_nat k) acc tr =
  (Chudnovsky.iter_events k ++ tr,
   rbind (Chudnovsky.term k) (fun t => Py.add acc (PyFloat t))).
Proof.
  intros Hl. unfold Chudnovsky.loop_body.
  change 6 with (Z.of_nat 6). change 3 with (Z.of_nat 3) at 1.
  step. rewrite bind_lift, pow_minus_one by lia. cbv beta iota.
  do 7 step.
  unfold Chudnovsky.term, Chudnovsky.iter_events.
  rewrite <- !app_assoc. cbn [app].
  rewrite bind_lift, truediv_3_2. cbv beta iota.
  rewrite bind_lift, add_int_float.
  destruct (Py.int_to_float (3 * Z.of_nat k)) as [e|ex]; [|reflexivity].
  cbn [rbind]. rewrite bind_lift, pow_640320.
  destruct (Py.float_pow 640320 (e + 1.5)) as [p|ex]; [|reflexivity].
  cbn [rmap rbind]. rewrite bind_lift, mul_int_float.
  destruct (Py.int_to_float (zfact (3 * k) * zfact k ^ 3)) as [d|ex];
    [|reflexivity].
  cbn [rbind]. rewrite bind_lift, truediv_int_float.
  destruct (Py.int_to_float _) as [n|ex]; [|reflexivity].
  cbn [rbind]. destruct (is_zero (d * p)); reflexivity.
Qed.

Lemma ramanujan_body_run limit k acc tr :
  (4 * k < limit)%nat ->
  Ramanujan.loop_body limit (Z.of_nat k) acc tr =
  (Ramanujan.iter_events k ++ tr,
   rbind (Ramanujan.term k) (fun t => Py.add acc (PyFloat t))).
Proof.
  intros Hl. unfold Ramanujan.loop_body.
  change 4 with (Z.of_nat 4) at 1.
  do 7 step.
  unfold Ramanujan.term, Ramanujan.iter_events.
  rewrite <- !app_assoc. cbn [app].
  rewrite !bind_lift. unfold Py.truediv at 1.
  destruct (Py.int_truediv _ _) as [t|ex]; reflexivity.
Qed.

Lemma chudnovsky_iter_iterations k : iterations (Chudnovsky.iter_events k) = 1%nat.
Proof.
  unfold Chudnovsky.iter_events.
  now rewrite !iterations_app, !iterations_call_events.
Qed.

Lemma chudnovsky_iter_nonneg k : calls_nonneg (Chudnovsky.iter_events k).
Proof.
  unfold Chudnovsky.iter_events.
  repeat apply calls_nonneg_app;
    auto using calls_nonneg_call_events, calls_nonneg_iter.
Qed.

Lemma ramanujan_iter_iterations k : iterations (Ramanujan.iter_events k) = 1%nat.
Proof.
  unfold Ramanujan.iter_events.
  now rewrite !iterations_app, !iterations_call_events.
Qed.

Lemma ramanujan_iter_nonneg k : calls_nonneg (Ramanujan.iter_events k).
Proof.
  unfold Ramanujan.iter_events.
  repeat apply calls_nonneg_app;
    auto using calls_nonneg_call_events, calls_nonneg_iter.
Qed.

(** ** The estimators run as their series *)

(** With a frame for every [factorial] call, the Chudnovsky estimator
    leaves the events of its iterations and returns [1 / (12 * S)], or raises
    what the evaluation of that expression raises. *)
Lemma chudnovsky_run limit n :
  6 * n <= Z.of_nat limit ->
  run (Chudnovsky.estimate_pi limit n) =
  (loop_events Chudnovsky.term Chudnovsky.iter_events 0 (Z.to_nat n),
   rmap PyFloat (Chudnovsky.series_pi (Z.to_nat n))).
Proof.
  intros Hl. unfold run, Chudnovsky.estimate_pi.
  erewrite bind_ok_or_raise; cycle 1.
  { apply (for_range_run _ Chudnovsky.term Chudnovsky.iter_events (Z.to_nat n));
      [|lia].
    intros k acc tr Hk. apply chudnovsky_body_run. lia. }
  rewrite app_nil_r. unfold Chudnovsky.series_pi, Chudnovsky.series_sum.
  destruct (Z.to_nat n) as [|m] eqn:E.
  - reflexivity.
  - destruct (sum_terms Chudnovsky.term (S m)) as [s|e]; [|reflexivity].
    cbn [rmap rbind sum_value]. rewrite !bind_lift, mul_int_float, int_to_float_12.
    cbn [rbind]. rewrite truediv_int_float, int_to_float_1. cbn [rbind].
    unfold reciprocal, lift. destruct (is_zero (12 * s)); reflexivity.
Qed.

(** From the nineteenth iteration on the Chudnovsky loop is never run:
    [640320 ** 55.5] is out of the binary64 range. *)
Lemma chudnovsky_sum_19 : Chudnovsky.series_sum 19 = Raise OverflowError.
Proof. vm_compute. reflexivity. Qed.

Lemma chudnovsky_run_aborts limit n :
  19 <= n -> (108 < limit)%nat ->
  run (Chudnovsky.estimate_pi limit n) =
  (loop_events Chudnovsky.term Chudnovsky.iter_events 0 19, Raise OverflowError).
Proof.
  intros Hn Hl. unfold run, Chudnovsky.estimate_pi.
  erewrite bind_raise; [reflexivity|].
  rewrite <- (app_nil_r (loop_events _ _ _ _)).
  apply (for_range_aborts _ Chudnovsky.term Chudnovsky.iter_events 19).
  - intros k acc tr Hk. apply chudnovsky_body_run. lia.
  - lia.
  - pose proof chudnovsky_sum_19 as H19.
    unfold Chudnovsky.series_sum in H19. exact H19.
Qed.

Lemma math_sqrt_2 : Py.math_sqrt (PyInt 2) = Ok (PyFloat (sqrt 2)).
Proof. reflexivity. Qed.

Lemma twice_sqrt_2 : Py.mul (PyInt 2) (PyFloat (sqrt 2)) = Ok (PyFloat (2 * sqrt 2)).
Proof. reflexivity. Qed.

Lemma ramanujan_factor :
  Py.truediv (PyFloat (2 * sqrt 2)) (PyInt 9801) = Ok (PyFloat Ramanujan.factor).
Proof. reflexivity. Qed.

(** With a frame for every [factorial] call, the Ramanujan-Sato estimator
    leaves the events of its iterations and returns
    [1 / ((2 * sqrt 2 / 9801) * S)], or raises what the evaluation of that
    expression raises. *)
Lemma ramanujan_run limit n :
  4 * n <= Z.of_nat limit ->
  run (Ramanujan.estimate_pi limit n) =
  (loop_events Ramanujan.term Ramanujan.iter_events 0 (Z.to_nat n),
   rmap PyFloat (Ramanujan.series_pi (Z.to_nat n))).
Proof.
  intros Hl. unfold run, Ramanujan.estimate_pi.
  erewrite bind_ok_or_raise; cycle 1.
  { apply (for_range_run _ Ramanujan.term Ramanujan.iter_events (Z.to_nat n));
      [|lia].
    intros k acc tr Hk. apply ramanujan_body_run. lia. }
  rewrite app_nil_r. unfold Ramanujan.series_pi, Ramanujan.series_sum.
  destruct (Z.to_nat n) as [|m] eqn:E.
  - reflexivity.
  - destruct (sum_terms Ramanujan.term (S m)) as [s|e]; [|reflexivity].
    cbn [rmap rbind sum_value].
    rewrite bind_lift, math_sqrt_2. cbv beta iota.
    rewrite bind_lift, twice_sqrt_2. cbv beta iota.
    rewrite bind_lift, ramanujan_factor. cbv beta iota.
    rewrite bind_lift. cbn [Py.mul Py.as_float rbind].
    rewrite truediv_int_float, int_to_float_1. cbn [rbind].
    unfold reciprocal, lift. destruct (is_zero (Ramanujan.factor * s)); reflexivity.
Qed.

(** ** The Ramanujan-Sato sum stops growing *)

(** A quotient below [2^-1076] is a zero: CPython settles it on the bit
    lengths alone. *)
Lemma int_truediv_underflow a b :
  0 < a -> a * 2 ^ 1076 <= b -> Py.int_truediv a b = Ok zero.
Proof.
  intros Ha Hab.
  assert (Hb : 0 < b) by nia.
  assert (Hlog : Z.log2 a + 1076 <= Z.log2 b).
  { rewrite Z.add_comm, <- Z.log2_mul_pow2 by lia.
    apply Z.log2_le_mono. assumption. }
  unfold Py.int_truediv, Py.bit_length.
  replace (b =? 0) with false by (symmetry; apply Z.eqb_neq; lia).
  replace (a =? 0) with false by (symmetry; apply Z.eqb_neq; lia).
  replace (a <? 0) with false by (symmetry; apply Z.ltb_ge; lia).
  replace (b <? 0) with false by (symmetry; apply Z.ltb_ge; lia).
  rewrite !Z.abs_eq by lia. cbv zeta.
  replace (_ >? 1024) with false by (symmetry; rewrite Z.gtb_ltb; apply Z.ltb_ge; lia).
  replace (_ <? -1075) with true by (symmetry; apply Z.ltb_lt; lia).
  reflexivity.
Qed.

(** One more term divides the quotient by more than [396^4 / 512]. *)
Lemma ramanujan_ratio_step k F c T D :
  0 <= k -> 0 <= F -> 26390 <= c -> 0 <= T ->
  F * c * T <= D ->
  (4 * k + 4) * (4 * k + 3) * (4 * k + 2) * (4 * k + 1) * F * (c + 26390) * T
  <= (k + 1) ^ 4 * D * 396 ^ 4.
Proof.
  intros Hk HF Hc HT HD.
  assert (HFT : 0 <= F * T) by nia.
  assert (H1 : F * (c + 26390) * T <= 2 * D) by nia.
  assert (H2 : (4 * k + 4) * (4 * k + 3) * (4 * k + 2) * (4 * k + 1)
               <= 256 * (k + 1) ^ 4).
  { replace (256 * (k + 1) ^ 4) with ((4 * k + 4) * (4 * k + 4) * (4 * k + 4) * (4 * k + 4)) by ring.
    repeat apply Z.mul_le_mono_nonneg; lia. }
  assert (H0 : 0 <= F * (c + 26390) * T) by nia.
  assert (HP : 0 <= (4 * k + 4) * (4 * k + 3) * (4 * k + 2) * (4 * k + 1)) by nia.
  assert (HK : 0 <= (k + 1) ^ 4) by (apply Z.pow_nonneg; lia).
  replace ((4 * k + 4) * (4 * k + 3) * (4 * k + 2) * (4 * k + 1) * F * (c + 26390) * T)
    with ((4 * k + 4) * (4 * k + 3) * (4 * k + 2) * (4 * k + 1) * (F * (c + 26390) * T))
    by ring.
  apply Z.le_trans with (256 * (k + 1) ^ 4 * (2 * D)).
  - apply Z.mul_le_mono_nonneg; lia.
  - change (396 ^ 4) with 24591257856. nia.
Qed.

Lemma zfact_S n : zfact (S n) = Z.of_nat (S n) * zfact n.
Proof. reflexivity. Qed.

Lemma ramanujan_quotient_small_at_50 :
  zfact (4 * 50) * (1103 + 26390 * Z.of_nat 50) * 2 ^ 1076
  <= zfact 50 ^ 4 * 396 ^ (4 * Z.of_nat 50).
Proof. apply Z.leb_le. vm_compute. reflexivity. Qed.

Lemma ramanujan_quotient_small k :
  (50 <= k)%nat ->
  zfact (4 * k) * (1103 + 26390 * Z.of_nat k) * 2 ^ 1076
  <= zfact k ^ 4 * 396 ^ (4 * Z.of_nat k).
Proof.
  induction 1 as [|k Hk IH].
  - exact ramanujan_quotient_small_at_50.
  - replace (4 * S k)%nat with (S (S (S (S (4 * k))))) by lia.
    rewrite !zfact_S.
    replace (4 * Z.of_nat (S k)) with (4 * Z.of_nat k + 4) by lia.
    rewrite Z.pow_add_r by lia. rewrite Z.pow_mul_l.
    pose proof (zfact_pos (4 * k)) as HF.
    assert (HT : 0 <= 2 ^ 1076) by (apply Z.pow_nonneg; lia).
    pose proof (ramanujan_ratio_step (Z.of_nat k) (zfact (4 * k))
                  (1103 + 26390 * Z.of_nat k) (2 ^ 1076) _
                  ltac:(lia) ltac:(lia) ltac:(lia) HT IH) as Hstep.
    replace (Z.of_nat (S (S (S (S (4 * k)))))) with (4 * Z.of_nat k + 4) by lia.
    replace (Z.of_nat (S (S (S (4 * k))))) with (4 * Z.of_nat k + 3) by lia.
    replace (Z.of_nat (S (S (4 * k)))) with (4 * Z.of_nat k + 2) by lia.
    replace (Z.of_nat (S (4 * k))) with (4 * Z.of_nat k + 1) by lia.
    replace (Z.of_nat (S k)) with (Z.of_nat k + 1) by lia.
    replace (1103 + 26390 * (Z.of_nat k + 1))
      with (1103 + 26390 * Z.of_nat k + 26390) by ring.
    etransitivity; [|etransitivity; [exact Hstep|]]; apply Z.eq_le_incl; ring.
Qed.

(** From index 50 on the terms are [0.0]. *)
Lemma ramanujan_term_underflows k :
  (50 <= k)%nat -> Ramanujan.term k = Ok zero.
Proof.
  intros Hk. unfold Ramanujan.term. apply int_truediv_underflow.
  - pose proof (zfact_pos (4 * k)). nia.
  - apply ramanujan_quotient_small. assumption.
Qed.

(** A term of index 3 or more is absorbed by the sum of the first three. *)
Lemma ramanujan_term_absorbed k :
  (3 <= k)%nat ->
  sum_step Ramanujan.term (Ramanujan.series_sum 3) k = Ramanujan.series_sum 3.
Proof.
  intros Hk. destruct (le_lt_dec 50 k) as [Hbig|Hsmall].
  - unfold sum_step. rewrite ramanujan_term_underflows by assumption.
    vm_compute. reflexivity.
  - do 50 (destruct k as [|k]; [first [lia | vm_compute; reflexivity]|]). lia.
Qed.

Lemma ramanujan_sum_saturates n :
  (3 <= n)%nat -> Ramanujan.series_sum n = Ramanujan.series_sum 3.
Proof.
  induction 1 as [|n Hn IH]; [reflexivity|].
  unfold Ramanujan.series_sum in *. rewrite sum_terms_S, IH.
  apply ramanujan_term_absorbed. assumption.
Qed.

Lemma ramanujan_pi_saturates n :
  (3 <= n)%nat -> Ramanujan.series_pi n = Ramanujan.series_pi 3.
Proof.
  intros Hn. unfold Ramanujan.series_pi. now rewrite ramanujan_sum_saturates.
Qed.

(** No Ramanujan-Sato term raises. *)
Lemma ramanujan_term_ok k : exists t, Ramanujan.term k = Ok t.
Proof.
  destruct (le_lt_dec 50 k) as [Hbig|Hsmall].
  - exists zero. now apply ramanujan_term_underflows.
  - do 50 (destruct k as [|k]; [eexists; vm_compute; reflexivity|]). lia.
Qed.

Lemma chudnovsky_term_ok k : (k < 18)%nat -> exists t, Chudnovsky.term k = Ok t.
Proof.
  intros Hk.
  do 18 (destruct k as [|k]; [eexists; vm_compute; reflexivity|]). lia.
Qed.

Lemma chudnovsky_result limit n :
  6 * n <= Z.of_nat limit ->
  result_of (Chudnovsky.estimate_pi limit n) =
  rmap PyFloat (Chudnovsky.series_pi (Z.to_nat n)).
Proof. intros H. unfold result_of. now rewrite chudnovsky_run. Qed.

Lemma ramanujan_result limit n :
  4 * n <= Z.of_nat limit ->
  result_of (Ramanujan.estimate_pi limit n) =
  rmap PyFloat (Ramanujan.series_pi (Z.to_nat n)).
Proof. intros H. unfold result_of. now rewrite ramanujan_run. Qed.

(** ** The contracts of the two estimators *)

Lemma chudnovsky_sums_nonzero m :
  (1 <= m <= 18)%nat ->
  exists s, Chudnovsky.series_sum m = Ok s /\ is_zero (12 * s) = false.
Proof.
  intros Hm.
  assert (T : forallb (fun m => match Chudnovsky.series_sum m with
                                | Ok s => negb (is_zero (12 * s))
                                | Raise _ => false
                                end) (seq 1 18) = true)
    by (vm_compute; reflexivity).
  rewrite forallb_forall in T. specialize (T m).
  destruct (Chudnovsky.series_sum m) as [s|e].
  - exists s. split; [reflexivity|]. apply negb_true_iff, T, in_seq. lia.
  - discriminate T. apply in_seq. lia.
Qed.

(** C1, as the claim states it, fails at [k_max = 19]: the call returns
    nothing, it raises [OverflowError] on [640320 ** 55.5]. *)
Lemma chudnovsky_19_terms_overflow :
  result_of (Chudnovsky.estimate_pi 1000 19) = Raise OverflowError
  /\ ~ (exists v, result_of (Chudnovsky.estimate_pi 1000 19) = Ok v).
Proof.
  assert (H : result_of (Chudnovsky.estimate_pi 1000 19) = Raise OverflowError).
  { unfold result_of. rewrite chudnovsky_run_aborts by lia. reflexivity. }
  split; [exact H|]. intros [v Hv]. rewrite H in Hv. discriminate Hv.
Qed.

(** C1, amended. For every integer term count [1 <= k_max <= 18] the
    Chudnovsky estimator returns [1 / (12 * S)], where [S] is the sum over
    [k] from [0] to [k_max - 1] of
    [(-1)^k (6k)! (545140134 k + 13591409) / ((3k)! (k!)^3 640320^(3k + 1.5))]
    evaluated in doubles, and the sign [(-1)**k] is the exact integer [1] or
    [-1] given by the parity of [k]; for every [k_max >= 19] the call raises
    [OverflowError]. *)
Theorem chudnovsky_returns_series_up_to_18 :
  (forall (limit : nat) (k_max : Z),
      1 <= k_max <= 18 -> 6 * k_max <= Z.of_nat limit ->
      exists S,
        Chudnovsky.series_sum (Z.to_nat k_max) = Ok S
        /\ result_of (Chudnovsky.estimate_pi limit k_max)
           = Ok (PyFloat (1 / (12 * S))))
  /\ (forall k : Z,
         0 <= k ->
         Py.pow (PyInt (-1)) (PyInt k)
         = Ok (PyInt (if Z.even k then 1 else -1)))
  /\ (forall (limit : nat) (k_max : Z),
         19 <= k_max -> (108 < limit)%nat ->
         result_of (Chudnovsky.estimate_pi limit k_max) = Raise OverflowError).
Proof.
  split; [|split].
  - intros limit k_max Hk Hl.
    destruct (chudnovsky_sums_nonzero (Z.to_nat k_max) ltac:(lia)) as (s & Hs & Hz).
    exists s. split; [exact Hs|].
    rewrite chudnovsky_result by assumption.
    unfold Chudnovsky.series_pi. rewrite Hs. cbn [rbind].
    unfold reciprocal. rewrite Hz. reflexivity.
  - intros k Hk. exact (pow_minus_one k Hk).
  - intros limit k_max Hk Hl. unfold result_of.
    rewrite chudnovsky_run_aborts by assumption. reflexivity.
Qed.

Lemma chudnovsky_returns_series_up_to_18_witness :
  (exists S,
      Chudnovsky.series_sum (Z.to_nat 4) = Ok S
      /\ result_of (Chudnovsky.estimate_pi 1000 4) = Ok (PyFloat (1 / (12 * S))))
  /\ Py.pow (PyInt (-1)) (PyInt 3) = Ok (PyInt (if Z.even 3 then 1 else -1))
  /\ result_of (Chudnovsky.estimate_pi 1000 19) = Raise OverflowError.
Proof.
  destruct chudnovsky_returns_series_up_to_18 as (H1 & H2 & H3).
  split; [|split].
  - apply (H1 1000%nat 4); lia.
  - apply (H2 3); lia.
  - apply (H3 1000%nat 19); lia.
Defined.

Lemma ramanujan_sums_nonzero m :
  (1 <= m)%nat ->
  exists s, Ramanujan.series_sum m = Ok s /\ is_zero (Ramanujan.factor * s) = false.
Proof.
  intros Hm.
  assert (T : forall j, (1 <= j <= 3)%nat ->
                exists s, Ramanujan.series_sum j = Ok s
                          /\ is_zero (Ramanujan.factor * s) = false).
  { intros j Hj.
    do 4 (destruct j as [|j];
          [first [lia | eexists; split; vm_compute; reflexivity]|]). lia. }
  destruct (le_lt_dec 3 m) as [Hbig|Hsmall].
  - rewrite ramanujan_sum_saturates by assumption. apply T. lia.
  - apply T. lia.
Qed.

(** C2. For every integer term count [k_max >= 1] the Ramanujan-Sato
    estimator returns [1 / ((2 * sqrt 2 / 9801) * S)], where [S] is the sum
    over [k] from [0] to [k_max - 1] of
    [(4k)! (1103 + 26390 k) / ((k!)^4 396^(4k))], evaluated in doubles (the
    call needs a frame for each call of [factorial]). *)
Theorem ramanujan_returns_series :
  forall (limit : nat) (k_max : Z),
    1 <= k_max -> 4 * k_max <= Z.of_nat limit ->
    exists S,
      Ramanujan.series_sum (Z.to_nat k_max) = Ok S
      /\ result_of (Ramanujan.estimate_pi limit k_max)
         = Ok (PyFloat (1 / (Ramanujan.factor * S))).
Proof.
  intros limit k_max Hk Hl.
  destruct (ramanujan_sums_nonzero (Z.to_nat k_max) ltac:(lia)) as (s & Hs & Hz).
  exists s. split; [exact Hs|].
  rewrite ramanujan_result by assumption.
  unfold Ramanujan.series_pi. rewrite Hs. cbn [rbind].
  unfold reciprocal. rewrite Hz. reflexivity.
Qed.

Lemma ramanujan_returns_series_witness :
  exists S,
    Ramanujan.series_sum (Z.to_nat 8) = Ok S
    /\ result_of (Ramanujan.estimate_pi 1000 8)
       = Ok (PyFloat (1 / (Ramanujan.factor * S))).
Proof. apply (ramanujan_returns_series 1000 8); lia. Defined.

(** ** Term counts below one *)

Lemma for_range_nonpositive body n acc tr :
  n <= 0 -> for_range body n acc tr = (tr, Ok acc).
Proof.
  intros Hn. unfold for_range.
  replace (Z.to_nat n) with 0%nat by lia. reflexivity.
Qed.

(** C10. For every term count [<= 0] the loop body of either estimator is
    never run and leaves [sum_result] at the integer [0]; the call then
    fails with [ZeroDivisionError] at the final reciprocal and returns no
    value. *)
Theorem nonpositive_term_count_divides_by_zero :
  forall (limit : nat) (num_terms : Z),
    num_terms <= 0 ->
    (forall tr,
        for_range (Chudnovsky.loop_body limit) num_terms (PyInt 0) tr
        = (tr, Ok (PyInt 0)))
    /\ (forall tr,
           for_range (Ramanujan.loop_body limit) num_terms (PyInt 0) tr
           = (tr, Ok (PyInt 0)))
    /\ run (Chudnovsky.estimate_pi limit num_terms) = ([], Raise ZeroDivisionError)
    /\ run (Ramanujan.estimate_pi limit num_terms) = ([], Raise ZeroDivisionError).
Proof.
  intros limit n Hn. repeat split.
  - intros tr. now apply for_range_nonpositive.
  - intros tr. now apply for_range_nonpositive.
  - unfold run, Chudnovsky.estimate_pi.
    rewrite (bind_ok _ _ _ _ _ (for_range_nonpositive _ n _ _ Hn)).
    reflexivity.
  - unfold run, Ramanujan.estimate_pi.
    rewrite (bind_ok _ _ _ _ _ (for_range_nonpositive _ n _ _ Hn)).
    reflexivity.
Qed.

Lemma nonpositive_term_count_divides_by_zero_witness :
  (forall tr,
      for_range (Chudnovsky.loop_body 1000) 0 (PyInt 0) tr = (tr, Ok (PyInt 0)))
  /\ (forall tr,
         for_range (Ramanujan.loop_body 1000) 0 (PyInt 0) tr = (tr, Ok (PyInt 0)))
  /\ run (Chudnovsky.estimate_pi 1000 0) = ([], Raise ZeroDivisionError)
  /\ run (Ramanujan.estimate_pi 1000 0) = ([], Raise ZeroDivisionError).
Proof. apply (nonpositive_term_count_divides_by_zero 1000 0). lia. Defined.

(** C5, as the claim states it, fails at the term count [-1]: neither
    estimator raises an invalid-argument error, both raise
    [ZeroDivisionError]. *)
Lemma negative_term_count_not_rejected :
  result_of (Chudnovsky.estimate_pi 1000 (-1)) <> Raise ValueError
  /\ result_of (Ramanujan.estimate_pi 1000 (-1)) <> Raise ValueError
  /\ result_of (Chudnovsky.estimate_pi 1000 (-1)) = Raise ZeroDivisionError
  /\ result_of (Ramanujan.estimate_pi 1000 (-1)) = Raise ZeroDivisionError.
Proof. repeat split; discriminate. Qed.

(** C5, amended. For every negative term count neither estimator checks its
    argument: the loop body is never run, no [factorial] call is made, and
    the call fails with [ZeroDivisionError] at the final reciprocal, not with
    an invalid-argument error. *)
Theorem negative_term_count_divides_by_zero :
  forall (limit : nat) (num_terms : Z),
    num_terms < 0 ->
    result_of (Chudnovsky.estimate_pi limit num_terms) = Raise ZeroDivisionError
    /\ result_of (Ramanujan.estimate_pi limit num_terms) = Raise ZeroDivisionError
    /\ trace_of (Chudnovsky.estimate_pi limit num_terms) = []
    /\ trace_of (Ramanujan.estimate_pi limit num_terms) = [].
Proof.
  intros limit n Hn. unfold result_of, trace_of, run, Chudnovsky.estimate_pi,
    Ramanujan.estimate_pi.
  rewrite !(bind_ok _ _ _ _ _ (for_range_nonpositive _ n _ _ ltac:(lia))).
  repeat split.
Qed.

Lemma negative_term_count_divides_by_zero_witness :
  result_of (Chudnovsky.estimate_pi 1000 (-3)) = Raise ZeroDivisionError
  /\ result_of (Ramanujan.estimate_pi 1000 (-3)) = Raise ZeroDivisionError
  /\ trace_of (Chudnovsky.estimate_pi 1000 (-3)) = []
  /\ trace_of (Ramanujan.estimate_pi 1000 (-3)) = [].
Proof. apply (negative_term_count_divides_by_zero 1000 (-3)). lia. Defined.

(** ** Accuracy in double precision *)

(** The double each decimal literal below denotes is the correctly rounded
    quotient of its digits by the power of ten. *)
Lemma literals_are_nearest_doubles :
  Py.int_truediv 31415926535897345 (10 ^ 16) = Ok 3.1415926535897345%float
  /\ Py.int_truediv 31415927300133055 (10 ^ 16) = Ok 3.1415927300133055%float
  /\ Py.int_truediv 3141592653589793 (10 ^ 15) = Ok Py.math_pi
  /\ Py.int_truediv 1 (10 ^ 7) = Ok 1e-7%float
  /\ Py.int_truediv 1 (10 ^ 13) = Ok 1e-13%float
  /\ Py.int_truediv 1 (10 ^ 15) = Ok 1e-15%float.
Proof. repeat split. Qed.

(** C6. In double precision the Chudnovsky estimate with one term is
    [3.1415926535897345] and differs from [math.pi] by less than [1e-13];
    with four terms it differs from [math.pi] by less than [1e-15]. *)
Theorem chudnovsky_double_precision :
  forall limit : nat,
    (24 <= limit)%nat ->
    result_of (Chudnovsky.estimate_pi limit 1) = Ok (PyFloat 3.1415926535897345)
    /\ (abs (3.1415926535897345 - Py.math_pi) <? 1e-13)%float = true
    /\ exists p4,
        result_of (Chudnovsky.estimate_pi limit 4) = Ok (PyFloat p4)
        /\ (abs (p4 - Py.math_pi) <? 1e-15)%float = true.
Proof.
  intros limit Hl. rewrite !chudnovsky_result by lia.
  split; [vm_compute; reflexivity|]. split; [reflexivity|].
  eexists. split; vm_compute; reflexivity.
Qed.

Lemma chudnovsky_double_precision_witness :
  result_of (Chudnovsky.estimate_pi 1000 1) = Ok (PyFloat 3.1415926535897345)
  /\ (abs (3.1415926535897345 - Py.math_pi) <? 1e-13)%float = true
  /\ exists p4,
      result_of (Chudnovsky.estimate_pi 1000 4) = Ok (PyFloat p4)
      /\ (abs (p4 - Py.math_pi) <? 1e-15)%float = true.
Proof. apply (chudnovsky_double_precision 1000). lia. Defined.

(** C7. In double precision the Ramanujan-Sato estimate with one term is
    [3.1415927300133055] and differs from [math.pi] by less than [1e-7];
    with four terms it differs from [math.pi] by less than [1e-15]. *)
Theorem ramanujan_double_precision :
  forall limit : nat,
    (16 <= limit)%nat ->
    result_of (Ramanujan.estimate_pi limit 1) = Ok (PyFloat 3.1415927300133055)
    /\ (abs (3.1415927300133055 - Py.math_pi) <? 1e-7)%float = true
    /\ exists p4,
        result_of (Ramanujan.estimate_pi limit 4) = Ok (PyFloat p4)
        /\ (abs (p4 - Py.math_pi) <? 1e-15)%float = true.
Proof.
  intros limit Hl. rewrite !ramanujan_result by lia.
  split; [vm_compute; reflexivity|]. split; [reflexivity|].
  eexists. split; vm_compute; reflexivity.
Qed.

Lemma ramanujan_double_precision_witness :
  result_of (Ramanujan.estimate_pi 1000 1) = Ok (PyFloat 3.1415927300133055)
  /\ (abs (3.1415927300133055 - Py.math_pi) <? 1e-7)%float = true
  /\ exists p4,
      result_of (Ramanujan.estimate_pi 1000 4) = Ok (PyFloat p4)
      /\ (abs (p4 - Py.math_pi) <? 1e-15)%float = true.
Proof. apply (ramanujan_double_precision 1000). lia. Defined.

(** The notebook's recorded output, reproduced: estimates and differences
    from [math.pi] for 1, 4 and 8 terms. *)
Example notebook_output_chudnovsky :
  map (fun n => result_of (Chudnovsky.estimate_pi 1000 n)) [1; 4; 8]
  = [Ok (PyFloat 3.1415926535897345); Ok (PyFloat 3.1415926535897936);
     Ok (PyFloat 3.1415926535897936)]
  /\ map (fun n => abs_error (result_of (Chudnovsky.estimate_pi 1000 n))) [1; 4; 8]
     = [Some 5.861977570020827e-14%float; Some 4.440892098500626e-16%float;
        Some 4.440892098500626e-16%float].
Proof. split; vm_compute; reflexivity. Qed.

Example notebook_output_ramanujan :
  map (fun n => result_of (Ramanujan.estimate_pi 1000 n)) [1; 4; 8]
  = [Ok (PyFloat 3.1415927300133055); Ok (PyFloat 3.141592653589793);
     Ok (PyFloat 3.141592653589793)]
  /\ map (fun n => abs_error (result_of (Ramanujan.estimate_pi 1000 n))) [1; 4; 8]
     = [Some 7.642351240733092e-08%float; Some 0%float; Some 0%float].
Proof. split; vm_compute; reflexivity. Qed.

(** ** The error does not grow with the term count *)

(** C8, as the claim states it, fails for the Chudnovsky estimator at
    [n = 18]: eighteen terms give an estimate, nineteen raise
    [OverflowError], so there is no error to compare. *)
Lemma chudnovsky_error_undefined_at_19 :
  (exists e, abs_error (result_of (Chudnovsky.estimate_pi 1000 18)) = Some e)
  /\ abs_error (result_of (Chudnovsky.estimate_pi 1000 19)) = None
  /\ error_not_worse (result_of (Chudnovsky.estimate_pi 1000 18))
                     (result_of (Chudnovsky.estimate_pi 1000 19)) = false.
Proof.
  assert (H18 : result_of (Chudnovsky.estimate_pi 1000 18)
                = rmap PyFloat (Chudnovsky.series_pi 18))
    by (rewrite chudnovsky_result by lia; reflexivity).
  assert (H19 : result_of (Chudnovsky.estimate_pi 1000 19) = Raise OverflowError)
    by (unfold result_of; rewrite chudnovsky_run_aborts by lia; reflexivity).
  rewrite H18, H19. split; [|split].
  - eexists. vm_compute. reflexivity.
  - reflexivity.
  - vm_compute. reflexivity.
Qed.

Lemma chudnovsky_error_steps m :
  (1 <= m <= 17)%nat ->
  error_not_worse (rmap PyFloat (Chudnovsky.series_pi m))
                  (rmap PyFloat (Chudnovsky.series_pi (S m))) = true.
Proof.
  intros Hm.
  assert (T : forallb (fun m => error_not_worse
                                  (rmap PyFloat (Chudnovsky.series_pi m))
                                  (rmap PyFloat (Chudnovsky.series_pi (S m))))
                      (seq 1 17) = true)
    by (vm_compute; reflexivity).
  rewrite forallb_forall in T. apply T, in_seq. lia.
Qed.

Lemma ramanujan_error_steps m :
  (1 <= m)%nat ->
  error_not_worse (rmap PyFloat (Ramanujan.series_pi m))
                  (rmap PyFloat (Ramanujan.series_pi (S m))) = true.
Proof.
  intros Hm. destruct (le_lt_dec 3 m) as [Hbig|Hsmall].
  - rewrite (ramanujan_pi_saturates m), (ramanujan_pi_saturates (S m)) by lia.
    vm_compute. reflexivity.
  - do 3 (destruct m as [|m]; [first [lia | vm_compute; reflexivity]|]). lia.
Qed.

(** C8, amended. The absolute difference from [math.pi] does not grow with
    the term count: [|estimate(n + 1) - pi| <= |estimate(n) - pi|] for the
    Chudnovsky estimator and every [1 <= n <= 17], and for the
    Ramanujan-Sato estimator and every [n >= 1]. *)
Theorem error_does_not_grow :
  (forall (limit : nat) (n : Z),
      1 <= n <= 17 -> 6 * (n + 1) <= Z.of_nat limit ->
      error_not_worse (result_of (Chudnovsky.estimate_pi limit n))
                      (result_of (Chudnovsky.estimate_pi limit (n + 1))) = true)
  /\ (forall (limit : nat) (n : Z),
         1 <= n -> 4 * (n + 1) <= Z.of_nat limit ->
         error_not_worse (result_of (Ramanujan.estimate_pi limit n))
                         (result_of (Ramanujan.estimate_pi limit (n + 1))) = true).
Proof.
  split; intros limit n Hn Hl.
  - rewrite !chudnovsky_result by lia.
    replace (Z.to_nat (n + 1)) with (S (Z.to_nat n)) by lia.
    apply chudnovsky_error_steps. lia.
  - rewrite !ramanujan_result by lia.
    replace (Z.to_nat (n + 1)) with (S (Z.to_nat n)) by lia.
    apply ramanujan_error_steps. lia.
Qed.

Lemma error_does_not_grow_witness :
  error_not_worse (result_of (Chudnovsky.estimate_pi 1000 1))
                  (result_of (Chudnovsky.estimate_pi 1000 (1 + 1))) = true
  /\ error_not_worse (result_of (Ramanujan.estimate_pi 1000 1))
                     (result_of (Ramanujan.estimate_pi 1000 (1 + 1))) = true.
Proof.
  destruct error_does_not_grow as (H1 & H2). split.
  - apply (H1 1000%nat 1); lia.
  - apply (H2 1000%nat 1); lia.
Defined.

(** ** Termination *)

(** C9, as the claim states it, fails for the Chudnovsky estimator at the
    term count 20: the loop is left in its nineteenth iteration by
    [OverflowError], it does not run twenty. *)
Lemma chudnovsky_20_terms_stop_early :
  iterations (trace_of (Chudnovsky.estimate_pi 1000 20)) = 19%nat
  /\ iterations (trace_of (Chudnovsky.estimate_pi 1000 20)) <> Z.to_nat 20.
Proof.
  assert (H : iterations (trace_of (Chudnovsky.estimate_pi 1000 20)) = 19%nat).
  { unfold trace_of. rewrite chudnovsky_run_aborts by lia. cbn [fst].
    vm_compute. reflexivity. }
  split; [exact H|]. rewrite H. discriminate.
Qed.

Lemma chudnovsky_events_19 :
  iterations (loop_events Chudnovsky.term Chudnovsky.iter_events 0 19) = 19%nat.
Proof. vm_compute. reflexivity. Qed.

(** C9, amended. [factorial] on [n >= 0] returns after the calls on
    [n, n - 1, ..., 0].  For every non-negative term count and a recursion
    limit that covers the largest [factorial] argument, each call of either
    estimator ends without [RecursionError], and every [factorial] call it
    makes has a non-negative argument; the Ramanujan-Sato loop runs exactly
    [term_count] iterations, the Chudnovsky loop runs exactly [term_count]
    iterations when [term_count <= 18] and is left in its nineteenth
    iteration by [OverflowError] otherwise. *)
Theorem estimators_terminate :
  (forall (limit : nat) (n : Z),
      0 <= n < Z.of_nat limit ->
      exists v, run (factorial limit n) = (call_events (Z.to_nat n), Ok v))
  /\ (forall (limit : nat) (num_terms : Z),
         0 <= num_terms -> 4 * num_terms <= Z.of_nat limit ->
         result_of (Ramanujan.estimate_pi limit num_terms) <> Raise RecursionError
         /\ iterations (trace_of (Ramanujan.estimate_pi limit num_terms))
            = Z.to_nat num_terms
         /\ calls_nonneg (trace_of (Ramanujan.estimate_pi limit num_terms)))
  /\ (forall (limit : nat) (num_terms : Z),
         0 <= num_terms -> 6 * Z.min num_terms 19 <= Z.of_nat limit ->
         result_of (Chudnovsky.estimate_pi limit num_terms) <> Raise RecursionError
         /\ iterations (trace_of (Chudnovsky.estimate_pi limit num_terms))
            = Z.to_nat (Z.min num_terms 19)
         /\ (19 <= num_terms ->
             result_of (Chudnovsky.estimate_pi limit num_terms)
             = Raise OverflowError)
         /\ calls_nonneg (trace_of (Chudnovsky.estimate_pi limit num_terms))).
Proof.
  split; [|split].
  - intros limit n Hn. exists (zfact (Z.to_nat n)). unfold run.
    rewrite <- (Z2Nat.id n) at 1 by lia.
    rewrite factorial_run by lia. now rewrite app_nil_r.
  - intros limit n Hn Hl. unfold result_of, trace_of.
    rewrite ramanujan_run by assumption. cbn [fst snd]. split; [|split].
    + destruct (Z.to_nat n) as [|m] eqn:E; [discriminate|].
      destruct (ramanujan_sums_nonzero (S m) ltac:(lia)) as (s & Hs & Hz).
      unfold Ramanujan.series_pi. rewrite Hs. cbn [rbind].
      unfold reciprocal. rewrite Hz. discriminate.
    + apply loop_events_iterations.
      * exact ramanujan_iter_iterations.
      * intros k _. apply ramanujan_term_ok.
    + apply loop_events_nonneg. exact ramanujan_iter_nonneg.
  - intros limit n Hn Hl. unfold result_of, trace_of.
    destruct (Z_lt_le_dec n 19) as [Hsmall|Hbig].
    + rewrite Z.min_l in * by lia.
      rewrite chudnovsky_run by assumption. cbn [fst snd].
      split; [|split; [|split]].
      * destruct (Z.to_nat n) as [|m] eqn:E; [discriminate|].
        destruct (chudnovsky_sums_nonzero (S m) ltac:(lia)) as (s & Hs & Hz).
        unfold Chudnovsky.series_pi. rewrite Hs. cbn [rbind].
        unfold reciprocal. rewrite Hz. discriminate.
      * apply loop_events_iterations.
        -- exact chudnovsky_iter_iterations.
        -- intros k Hk. apply chudnovsky_term_ok. lia.
      * lia.
      * apply loop_events_nonneg. exact chudnovsky_iter_nonneg.
    + rewrite Z.min_r in * by lia.
      rewrite chudnovsky_run_aborts by lia. cbn [fst snd].
      split; [|split; [|split]].
      * discriminate.
      * exact chudnovsky_events_19.
      * reflexivity.
      * apply loop_events_nonneg. exact chudnovsky_iter_nonneg.
Qed.

Lemma estimators_terminate_witness :
  (exists v, run (factorial 1000 7) = (call_events (Z.to_nat 7), Ok v))
  /\ (result_of (Ramanujan.estimate_pi 1000 8) <> Raise RecursionError
      /\ iterations (trace_of (Ramanujan.estimate_pi 1000 8)) = Z.to_nat 8
      /\ calls_nonneg (trace_of (Ramanujan.estimate_pi 1000 8)))
  /\ (result_of (Chudnovsky.estimate_pi 1000 8) <> Raise RecursionError
      /\ iterations (trace_of (Chudnovsky.estimate_pi 1000 8))
         = Z.to_nat (Z.min 8 19)
      /\ (19 <= 8 -> result_of (Chudnovsky.estimate_pi 1000 8) = Raise OverflowError)
      /\ calls_nonneg (trace_of (Chudnovsky.estimate_pi 1000 8))).
Proof.
  destruct estimators_terminate as (H1 & H2 & H3). split; [|split].
  - apply (H1 1000%nat 7); lia.
  - apply (H2 1000%nat 8); lia.
  - apply (H3 1000%nat 8); lia.
Defined.

(** * Further properties of the notebook's functions *)

(** Splits conjunctions only, leaving equations to [vm_compute]. *)
Ltac split_conj := repeat match goal with |- _ /\ _ => split end.

(** ** The frames [factorial] needs *)

Lemma factorial_too_deep limit n tr :
  (limit <= n)%nat ->
  factorial limit (Z.of_nat n) tr =
  (descent limit (Z.of_nat n) ++ tr, Raise RecursionError).
Proof.
  revert n tr. induction limit as [|l IH]; intros n tr Hle; [reflexivity|].
  destruct n as [|n]; [lia|].
  cbn [factorial]. rewrite bind_emit.
  replace (Z.of_nat (S n) =? 0) with false by (symmetry; apply Z.eqb_neq; lia).
  replace (Z.of_nat (S n) - 1) with (Z.of_nat n) by lia.
  rewrite (bind_raise _ _ _ _ _ (IH n _ ltac:(lia))).
  cbn [descent]. replace (Z.of_nat (S n) - 1) with (Z.of_nat n) by lia.
  now rewrite <- app_assoc.
Qed.

(** X1. On [n >= 0], [factorial(n)] returns [n!] exactly when the recursion
    limit leaves it [n + 1] frames, and raises [RecursionError] otherwise;
    either way it enters [min (n + 1) limit] calls. *)
Theorem factorial_needs_n_plus_1_frames :
  forall (limit : nat) (n : Z),
    0 <= n ->
    result_of (factorial limit n)
    = (if n <? Z.of_nat limit then Ok (zfact (Z.to_nat n))
       else Raise RecursionError)
    /\ length (trace_of (factorial limit n)) = Nat.min (S (Z.to_nat n)) limit.
Proof.
  intros limit n Hn. unfold result_of, trace_of, run.
  rewrite <- (Z2Nat.id n) by assumption. rewrite Nat2Z.id.
  generalize (Z.to_nat n) as m. intros m.
  destruct (Z.of_nat m <? Z.of_nat limit) eqn:E.
  - apply Z.ltb_lt in E. rewrite factorial_run by lia. cbn [fst snd].
    split; [reflexivity|]. rewrite app_nil_r, length_call_events. lia.
  - apply Z.ltb_ge in E. rewrite factorial_too_deep by lia. cbn [fst snd].
    split; [reflexivity|]. rewrite app_nil_r, length_descent. lia.
Qed.

Lemma factorial_needs_n_plus_1_frames_witness :
  result_of (factorial 5 5)
  = (if 5 <? Z.of_nat 5 then Ok (zfact (Z.to_nat 5)) else Raise RecursionError)
  /\ length (trace_of (factorial 5 5)) = Nat.min (S (Z.to_nat 5)) 5.
Proof. apply (factorial_needs_n_plus_1_frames 5 5). lia. Defined.

(** ** Counting [factorial] calls *)

Lemma calls_app tr1 tr2 : calls (tr1 ++ tr2) = (calls tr1 + calls tr2)%nat.
Proof. unfold calls. now rewrite filter_app, length_app. Qed.

Lemma calls_call_events n : calls (call_events n) = S n.
Proof.
  induction n as [|n IH]; [reflexivity|].
  cbn [call_events]. rewrite calls_app, IH. cbn. lia.
Qed.

Lemma calls_ramanujan_iter k : calls (Ramanujan.iter_events k) = (5 * k + 2)%nat.
Proof.
  unfold Ramanujan.iter_events. rewrite !calls_app, !calls_call_events.
  cbn. lia.
Qed.

Lemma calls_chudnovsky_iter k : calls (Chudnovsky.iter_events k) = (10 * k + 3)%nat.
Proof.
  unfold Chudnovsky.iter_events. rewrite !calls_app, !calls_call_events.
  cbn. lia.
Qed.

Lemma calls_ramanujan_loop c :
  forall i,
    (2 * calls (loop_events Ramanujan.term Ramanujan.iter_events i c)
     + c = c * (10 * i + 5 * c))%nat.
Proof.
  induction c as [|c IH]; intros i; [reflexivity|].
  cbn [loop_events]. destruct (ramanujan_term_ok i) as [t Ht]. rewrite Ht.
  rewrite calls_app, calls_ramanujan_iter. specialize (IH (S i)).
  replace (S c * (10 * i + 5 * S c))%nat
    with (c * (10 * S i + 5 * c) + (10 * i + 5))%nat by ring.
  lia.
Qed.

Lemma calls_chudnovsky_loop c :
  forall i,
    (i + c <= 18)%nat ->
    (calls (loop_events Chudnovsky.term Chudnovsky.iter_events i c)
     + 2 * c = c * (10 * i + 5 * c))%nat.
Proof.
  induction c as [|c IH]; intros i Hb; [reflexivity|].
  cbn [loop_events]. destruct (chudnovsky_term_ok i ltac:(lia)) as [t Ht].
  rewrite Ht, calls_app, calls_chudnovsky_iter.
  specialize (IH (S i) ltac:(lia)).
  replace (S c * (10 * i + 5 * S c))%nat
    with (c * (10 * S i + 5 * c) + (10 * i + 5))%nat by ring.
  lia.
Qed.

(** The estimators need a frame for the largest [factorial] argument only. *)
Lemma ramanujan_run_exact limit n :
  4 * (n - 1) < Z.of_nat limit ->
  run (Ramanujan.estimate_pi limit n) =
  (loop_events Ramanujan.term Ramanujan.iter_events 0 (Z.to_nat n),
   rmap PyFloat (Ramanujan.series_pi (Z.to_nat n))).
Proof.
  intros Hl. destruct (Z_le_gt_dec n 0) as [Hn|Hn].
  - apply ramanujan_run. lia.
  - unfold run, Ramanujan.estimate_pi.
    erewrite bind_ok_or_raise; cycle 1.
    { apply (for_range_run _ Ramanujan.term Ramanujan.iter_events (Z.to_nat n));
        [|lia].
      intros k acc tr Hk. apply ramanujan_body_run. lia. }
    rewrite app_nil_r.
    destruct (ramanujan_sums_nonzero (Z.to_nat n) ltac:(lia)) as (s & Hs & Hz).
    unfold Ramanujan.series_pi. fold (Ramanujan.series_sum (Z.to_nat n)).
    rewrite Hs. destruct (Z.to_nat n) as [|m] eqn:E; [lia|].
    cbn [rmap rbind sum_value].
    rewrite bind_lift, math_sqrt_2. cbv beta iota.
    rewrite bind_lift, twice_sqrt_2. cbv beta iota.
    rewrite bind_lift, ramanujan_factor. cbv beta iota.
    rewrite bind_lift. cbn [Py.mul Py.as_float rbind].
    rewrite truediv_int_float, int_to_float_1. cbn [rbind].
    unfold reciprocal, lift. rewrite Hz. reflexivity.
Qed.

Lemma chudnovsky_run_exact limit n :
  n <= 18 -> 6 * (n - 1) < Z.of_nat limit ->
  run (Chudnovsky.estimate_pi limit n) =
  (loop_events Chudnovsky.term Chudnovsky.iter_events 0 (Z.to_nat n),
   rmap PyFloat (Chudnovsky.series_pi (Z.to_nat n))).
Proof.
  intros Hn18 Hl. destruct (Z_le_gt_dec n 0) as [Hn|Hn].
  - apply chudnovsky_run. lia.
  - unfold run, Chudnovsky.estimate_pi.
    erewrite bind_ok_or_raise; cycle 1.
    { apply (for_range_run _ Chudnovsky.term Chudnovsky.iter_events (Z.to_nat n));
        [|lia].
      intros k acc tr Hk. apply chudnovsky_body_run. lia. }
    rewrite app_nil_r.
    destruct (chudnovsky_sums_nonzero (Z.to_nat n) ltac:(lia)) as (s & Hs & Hz).
    unfold Chudnovsky.series_pi. fold (Chudnovsky.series_sum (Z.to_nat n)).
    rewrite Hs. destruct (Z.to_nat n) as [|m] eqn:E; [lia|].
    cbn [rmap rbind sum_value].
    rewrite !bind_lift, mul_int_float, int_to_float_12.
    cbn [rbind]. rewrite truediv_int_float, int_to_float_1. cbn [rbind].
    unfold reciprocal, lift. rewrite Hz. reflexivity.
Qed.

(** X2. The number of [factorial] calls grows with the square of the term
    count: a Ramanujan-Sato call with [n >= 0] terms enters [factorial]
    [(5 n^2 - n) / 2] times, a Chudnovsky call with [0 <= n <= 18] terms
    [5 n^2 - 2 n] times, recursive calls included. *)
Theorem factorial_calls_are_quadratic :
  (forall (limit : nat) (n : Z),
      0 <= n -> 4 * (n - 1) < Z.of_nat limit ->
      2 * Z.of_nat (calls (trace_of (Ramanujan.estimate_pi limit n)))
      = 5 * n * n - n)
  /\ (forall (limit : nat) (n : Z),
         0 <= n <= 18 -> 6 * (n - 1) < Z.of_nat limit ->
         Z.of_nat (calls (trace_of (Chudnovsky.estimate_pi limit n)))
         = 5 * n * n - 2 * n).
Proof.
  split; intros limit n Hn Hl; unfold trace_of.
  - rewrite ramanujan_run_exact by assumption. cbn [fst].
    pose proof (calls_ramanujan_loop (Z.to_nat n) 0) as H.
    rewrite <- (Z2Nat.id n) at 2 3 4 by lia. nia.
  - rewrite chudnovsky_run_exact by lia. cbn [fst].
    pose proof (calls_chudnovsky_loop (Z.to_nat n) 0 ltac:(lia)) as H.
    rewrite <- (Z2Nat.id n) at 2 3 4 by lia. nia.
Qed.

Lemma factorial_calls_are_quadratic_witness :
  2 * Z.of_nat (calls (trace_of (Ramanujan.estimate_pi 1000 8))) = 5 * 8 * 8 - 8
  /\ Z.of_nat (calls (trace_of (Chudnovsky.estimate_pi 1000 8)))
     = 5 * 8 * 8 - 2 * 8.
Proof.
  destruct factorial_calls_are_quadratic as (H1 & H2). split.
  - apply (H1 1000%nat 8); lia.
  - apply (H2 1000%nat 8); lia.
Defined.

(** ** The recursion limit the estimators need *)

Lemma bind_snd_raise {A B : Type} (m : M A) (f : A -> M B) tr e :
  snd (m tr) = Raise e -> snd (bind m f tr) = Raise e.
Proof.
  intros H. unfold bind. destruct (m tr) as [tr' [a|e']]; cbn in *; congruence.
Qed.

Lemma ramanujan_body_shallow limit k acc tr :
  (limit <= 4 * k)%nat ->
  snd (Ramanujan.loop_body limit (Z.of_nat k) acc tr) = Raise RecursionError.
Proof.
  intros Hl. unfold Ramanujan.loop_body. rewrite bind_emit.
  apply bind_snd_raise.
  change 4 with (Z.of_nat 4). rewrite <- Nat2Z.inj_mul.
  now rewrite factorial_too_deep.
Qed.

Lemma chudnovsky_body_shallow limit k acc tr :
  (limit <= 6 * k)%nat ->
  snd (Chudnovsky.loop_body limit (Z.of_nat k) acc tr) = Raise RecursionError.
Proof.
  intros Hl. unfold Chudnovsky.loop_body. rewrite bind_emit.
  rewrite bind_lift, pow_minus_one by lia. cbv beta iota.
  apply bind_snd_raise.
  change 6 with (Z.of_nat 6). rewrite <- Nat2Z.inj_mul.
  now rewrite factorial_too_deep.
Qed.

(** A loop whose last index asks [factorial] for more frames than there are
    ends in [RecursionError], at the first index that does. *)
Lemma ramanujan_loop_shallow limit c :
  forall i s tr,
    (i = 0%nat -> s = zero) ->
    (limit <= 4 * (i + c))%nat ->
    snd (for_loop (Ramanujan.loop_body limit) (S c) (Z.of_nat i)
                  (sum_value i s) tr)
    = Raise RecursionError.
Proof.
  induction c as [|c IH]; intros i s tr Hs Hl.
  - cbn [for_loop]. apply bind_snd_raise, ramanujan_body_shallow. lia.
  - destruct (le_lt_dec limit (4 * i)) as [Hfail|Hgo].
    + cbn [for_loop]. apply bind_snd_raise, ramanujan_body_shallow. lia.
    + remember (S c) as c'. cbn [for_loop]. subst c'.
      unfold bind at 1. rewrite ramanujan_body_run by assumption.
      destruct (ramanujan_term_ok i) as [t Ht]. rewrite Ht. cbn [rbind].
      rewrite add_sum_value by assumption.
      replace (Z.of_nat i + 1) with (Z.of_nat (S i)) by lia.
      apply IH; [discriminate|lia].
Qed.

Lemma chudnovsky_loop_shallow limit c :
  forall i s tr,
    (i = 0%nat -> s = zero) ->
    (i + c <= 18)%nat ->
    (limit <= 6 * (i + c))%nat ->
    snd (for_loop (Chudnovsky.loop_body limit) (S c) (Z.of_nat i)
                  (sum_value i s) tr)
    = Raise RecursionError.
Proof.
  induction c as [|c IH]; intros i s tr Hs Hb Hl.
  - cbn [for_loop]. apply bind_snd_raise, chudnovsky_body_shallow. lia.
  - destruct (le_lt_dec limit (6 * i)) as [Hfail|Hgo].
    + cbn [for_loop]. apply bind_snd_raise, chudnovsky_body_shallow. lia.
    + remember (S c) as c'. cbn [for_loop]. subst c'.
      unfold bind at 1. rewrite chudnovsky_body_run by assumption.
      destruct (chudnovsky_term_ok i ltac:(lia)) as [t Ht]. rewrite Ht.
      cbn [rbind]. rewrite add_sum_value by assumption.
      replace (Z.of_nat i + 1) with (Z.of_nat (S i)) by lia.
      apply IH; [discriminate|lia|lia].
Qed.

Lemma ramanujan_shallow limit n :
  1 <= n -> Z.of_nat limit <= 4 * (n - 1) ->
  result_of (Ramanujan.estimate_pi limit n) = Raise RecursionError.
Proof.
  intros Hn Hl. unfold result_of, run, Ramanujan.estimate_pi.
  apply bind_snd_raise. unfold for_range.
  replace (Z.to_nat n) with (S (Z.to_nat n - 1)) by lia.
  change (PyInt 0) with (sum_value 0 zero). change 0 with (Z.of_nat 0).
  apply ramanujan_loop_shallow; [reflexivity|lia].
Qed.

Lemma chudnovsky_shallow limit n :
  1 <= n -> Z.of_nat limit <= 6 * (Z.min n 19 - 1) ->
  result_of (Chudnovsky.estimate_pi limit n) = Raise RecursionError.
Proof.
  intros Hn Hl. unfold result_of, run, Chudnovsky.estimate_pi.
  apply bind_snd_raise. unfold for_range.
  set (m := Z.to_nat (Z.min n 19)).
  replace (Z.to_nat n) with (m + (Z.to_nat n - m))%nat by lia.
  rewrite for_loop_app. apply bind_snd_raise.
  replace m with (S (m - 1)) by lia.
  change (PyInt 0) with (sum_value 0 zero). change 0 with (Z.of_nat 0).
  apply chudnovsky_loop_shallow; [reflexivity|lia|lia].
Qed.

(** X3. The Ramanujan-Sato estimator with [n >= 1] terms raises
    [RecursionError] exactly when the recursion limit is at most
    [4 (n - 1)], the argument of its deepest [factorial] call; above that
    it returns a float that no longer depends on the limit. *)
Theorem ramanujan_recursion_limit :
  forall (limit : nat) (n : Z),
    1 <= n ->
    (Z.of_nat limit <= 4 * (n - 1) ->
     result_of (Ramanujan.estimate_pi limit n) = Raise RecursionError)
    /\ (4 * (n - 1) < Z.of_nat limit ->
        exists f,
          result_of (Ramanujan.estimate_pi limit n) = Ok (PyFloat f)
          /\ forall limit' : nat,
              4 * (n - 1) < Z.of_nat limit' ->
              result_of (Ramanujan.estimate_pi limit' n) = Ok (PyFloat f)).
Proof.
  intros limit n Hn. split; intros Hl.
  - now apply ramanujan_shallow.
  - destruct (ramanujan_sums_nonzero (Z.to_nat n) ltac:(lia)) as (s & Hs & Hz).
    exists (1 / (Ramanujan.factor * s))%float.
    assert (G : forall l : nat,
               4 * (n - 1) < Z.of_nat l ->
               result_of (Ramanujan.estimate_pi l n)
               = Ok (PyFloat (1 / (Ramanujan.factor * s)))).
    { intros l Hl'. unfold result_of. rewrite ramanujan_run_exact by assumption.
      cbn [snd]. unfold Ramanujan.series_pi. rewrite Hs. cbn [rbind].
      unfold reciprocal. rewrite Hz. reflexivity. }
    split; [apply G; assumption|exact G].
Qed.

Lemma ramanujan_recursion_limit_witness :
  result_of (Ramanujan.estimate_pi 28 8) = Raise RecursionError
  /\ exists f,
      result_of (Ramanujan.estimate_pi 29 8) = Ok (PyFloat f)
      /\ forall limit' : nat,
          4 * (8 - 1) < Z.of_nat limit' ->
          result_of (Ramanujan.estimate_pi limit' 8) = Ok (PyFloat f).
Proof.
  split.
  - exact (proj1 (ramanujan_recursion_limit 28 8 ltac:(lia)) ltac:(lia)).
  - exact (proj2 (ramanujan_recursion_limit 29 8 ltac:(lia)) ltac:(lia)).
Defined.

(** X4. The Chudnovsky estimator with [n >= 1] terms raises
    [RecursionError] exactly when the recursion limit is at most
    [6 (min n 19 - 1)]: the deepest [factorial] call it reaches is on
    [6 (n - 1)], and on [108] from 19 terms on, where the loop is left by
    [OverflowError]. *)
Theorem chudnovsky_recursion_limit :
  forall (limit : nat) (n : Z),
    1 <= n ->
    (Z.of_nat limit <= 6 * (Z.min n 19 - 1) ->
     result_of (Chudnovsky.estimate_pi limit n) = Raise RecursionError)
    /\ (6 * (Z.min n 19 - 1) < Z.of_nat limit ->
        result_of (Chudnovsky.estimate_pi limit n) <> Raise RecursionError
        /\ forall limit' : nat,
            6 * (Z.min n 19 - 1) < Z.of_nat limit' ->
            result_of (Chudnovsky.estimate_pi limit' n)
            = result_of (Chudnovsky.estimate_pi limit n)).
Proof.
  intros limit n Hn. split; intros Hl.
  - now apply chudnovsky_shallow.
  - destruct (Z_lt_le_dec n 19) as [Hsmall|Hbig].
    + rewrite Z.min_l in * by lia.
      destruct (chudnovsky_sums_nonzero (Z.to_nat n) ltac:(lia)) as (s & Hs & Hz).
      assert (G : forall l : nat,
                 6 * (n - 1) < Z.of_nat l ->
                 result_of (Chudnovsky.estimate_pi l n)
                 = Ok (PyFloat (1 / (12 * s)))).
      { intros l Hl'. unfold result_of.
        rewrite chudnovsky_run_exact by lia.
        cbn [snd]. unfold Chudnovsky.series_pi. rewrite Hs. cbn [rbind].
        unfold reciprocal. rewrite Hz. reflexivity. }
      rewrite (G limit Hl). split; [discriminate|exact G].
    + rewrite Z.min_r in * by lia.
      assert (G : forall l : nat,
                 6 * (19 - 1) < Z.of_nat l ->
                 result_of (Chudnovsky.estimate_pi l n) = Raise OverflowError).
      { intros l Hl'. unfold result_of.
        rewrite chudnovsky_run_aborts by lia. reflexivity. }
      rewrite (G limit Hl). split; [discriminate|exact G].
Qed.

Lemma chudnovsky_recursion_limit_witness :
  result_of (Chudnovsky.estimate_pi 42 8) = Raise RecursionError
  /\ (result_of (Chudnovsky.estimate_pi 43 8) <> Raise RecursionError
      /\ forall limit' : nat,
          6 * (Z.min 8 19 - 1) < Z.of_nat limit' ->
          result_of (Chudnovsky.estimate_pi limit' 8)
          = result_of (Chudnovsky.estimate_pi 43 8)).
Proof.
  split.
  - exact (proj1 (chudnovsky_recursion_limit 42 8 ltac:(lia)) ltac:(lia)).
  - exact (proj2 (chudnovsky_recursion_limit 43 8 ltac:(lia)) ltac:(lia)).
Defined.

(** ** Where the two sums stop moving *)

(** X5. From three terms on the Ramanujan-Sato estimator returns
    [math.pi] itself, whatever the term count. *)
Theorem ramanujan_returns_math_pi_from_3_terms :
  forall (limit : nat) (n : Z),
    3 <= n -> 4 * (n - 1) < Z.of_nat limit ->
    result_of (Ramanujan.estimate_pi limit n) = Ok (PyFloat Py.math_pi).
Proof.
  intros limit n Hn Hl. unfold result_of.
  rewrite ramanujan_run_exact by assumption. cbn [snd].
  rewrite ramanujan_pi_saturates by lia. vm_compute. reflexivity.
Qed.

Lemma ramanujan_returns_math_pi_from_3_terms_witness :
  result_of (Ramanujan.estimate_pi 1000 8) = Ok (PyFloat Py.math_pi).
Proof. apply (ramanujan_returns_math_pi_from_3_terms 1000 8); lia. Defined.

Lemma chudnovsky_plateau m :
  (2 <= m <= 18)%nat ->
  Chudnovsky.series_pi m = Ok (next_up Py.math_pi).
Proof.
  intros Hm.
  do 19 (destruct m as [|m]; [first [lia | vm_compute; reflexivity]|]). lia.
Qed.

Lemma not_math_pi x :
  (x =? Py.math_pi)%float = false -> Ok (PyFloat x) <> Ok (PyFloat Py.math_pi).
Proof.
  intros Hx H. injection H as ->. vm_compute in Hx. discriminate Hx.
Qed.

(** X6. The Chudnovsky estimator never returns [math.pi]: with one term it
    returns [3.1415926535897345], and with 2 to 18 terms always the double
    next above [math.pi], [3.1415926535897936]; every other call raises. *)
Theorem chudnovsky_never_returns_math_pi :
  (forall (limit : nat) (n : Z),
      result_of (Chudnovsky.estimate_pi limit n) <> Ok (PyFloat Py.math_pi))
  /\ (forall (limit : nat) (n : Z),
         2 <= n <= 18 -> 6 * (n - 1) < Z.of_nat limit ->
         result_of (Chudnovsky.estimate_pi limit n)
         = Ok (PyFloat (next_up Py.math_pi))
         /\ next_up Py.math_pi = 3.1415926535897936%float).
Proof.
  assert (P : forall (limit : nat) (n : Z),
             2 <= n <= 18 -> 6 * (n - 1) < Z.of_nat limit ->
             result_of (Chudnovsky.estimate_pi limit n)
             = Ok (PyFloat (next_up Py.math_pi))).
  { intros limit n Hn Hl. unfold result_of.
    rewrite chudnovsky_run_exact by lia. cbn [snd].
    rewrite chudnovsky_plateau by lia. reflexivity. }
  split.
  - intros limit n.
    destruct (Z_le_gt_dec n 0) as [H0|H0].
    { unfold result_of. rewrite chudnovsky_run by lia.
      replace (Z.to_nat n) with 0%nat by lia. discriminate. }
    destruct (Z_le_gt_dec (Z.of_nat limit) (6 * (Z.min n 19 - 1))) as [Hs|Hd].
    { rewrite chudnovsky_shallow by lia. discriminate. }
    destruct (Z_le_gt_dec 19 n) as [H19|H19].
    { unfold result_of. rewrite chudnovsky_run_aborts by lia. discriminate. }
    destruct (Z.eq_dec n 1) as [->|H1].
    + unfold result_of. rewrite chudnovsky_run_exact by lia. cbn [snd].
      replace (rmap PyFloat (Chudnovsky.series_pi (Z.to_nat 1)))
        with (Ok (PyFloat 3.1415926535897345)) by (vm_compute; reflexivity).
      apply not_math_pi. reflexivity.
    + rewrite P by lia. apply not_math_pi. reflexivity.
  - intros limit n Hn Hl. split; [now apply P|reflexivity].
Qed.

Lemma chudnovsky_never_returns_math_pi_witness :
  result_of (Chudnovsky.estimate_pi 1000 8) <> Ok (PyFloat Py.math_pi)
  /\ result_of (Chudnovsky.estimate_pi 1000 8) = Ok (PyFloat (next_up Py.math_pi))
  /\ next_up Py.math_pi = 3.1415926535897936%float.
Proof.
  destruct chudnovsky_never_returns_math_pi as (H1 & H2). split.
  - apply (H1 1000%nat 8).
  - apply (H2 1000%nat 8); lia.
Defined.

(** ** What one iteration adds *)

Lemma ramanujan_term_bounds m :
  exists t,
    Ramanujan.term m = Ok t
    /\ (0 <=? t)%float = true
    /\ (t <=? 1103)%float = true
    /\ is_zero t = (41 <=? m)%nat.
Proof.
  destruct (le_lt_dec 50 m) as [Hbig|Hsmall].
  - exists zero. rewrite ramanujan_term_underflows by assumption.
    split_conj; try reflexivity. symmetry. apply Nat.leb_le. lia.
  - do 50 (destruct m as [|m];
           [eexists; split_conj; vm_compute; reflexivity|]).
    lia.
Qed.

(** X7. An iteration of the Ramanujan-Sato loop never raises: at every
    index [k >= 0] it adds to the sum a double between [0] and [1103], and
    from [k = 41] on that double is [0.0], the quotient being too small for
    a double. *)
Theorem ramanujan_iteration_adds_small_term :
  forall (limit : nat) (k : Z) (s : float),
    0 <= k -> 4 * k < Z.of_nat limit ->
    exists t,
      result_of (Ramanujan.loop_body limit k (PyFloat s)) = Ok (PyFloat (s + t))
      /\ (0 <=? t)%float = true
      /\ (t <=? 1103)%float = true
      /\ (is_zero t = true <-> 41 <= k).
Proof.
  intros limit k s Hk Hl.
  destruct (ramanujan_term_bounds (Z.to_nat k)) as (t & Ht & H0 & H1 & Hz).
  exists t. split_conj; try assumption.
  - unfold result_of, run. rewrite <- (Z2Nat.id k) by assumption.
    rewrite ramanujan_body_run by lia. cbn [snd]. rewrite Ht. reflexivity.
  - rewrite Hz, Nat.leb_le. lia.
Qed.

Lemma ramanujan_iteration_adds_small_term_witness :
  exists t,
    result_of (Ramanujan.loop_body 1000 41 (PyFloat 1103)) = Ok (PyFloat (1103 + t))
    /\ (0 <=? t)%float = true
    /\ (t <=? 1103)%float = true
    /\ (is_zero t = true <-> 41 <= 41).
Proof. apply (ramanujan_iteration_adds_small_term 1000 41 1103); lia. Defined.

Lemma chudnovsky_term_sign m :
  (m < 18)%nat ->
  exists t,
    Chudnovsky.term m = Ok t
    /\ get_sign t = Z.odd (Z.of_nat m)
    /\ is_zero t = (13 <=? m)%nat.
Proof.
  intros Hm.
  do 18 (destruct m as [|m];
         [eexists; split_conj; vm_compute; reflexivity|]).
  lia.
Qed.

(** X8. An iteration of the Chudnovsky loop at an index [0 <= k <= 17]
    never raises: it adds a double whose sign bit is the parity of [k],
    positive for even [k] and negative for odd [k], and from [k = 13] on
    that double is a signed zero. *)
Theorem chudnovsky_iteration_adds_alternating_term :
  forall (limit : nat) (k : Z) (s : float),
    0 <= k <= 17 -> 6 * k < Z.of_nat limit ->
    exists t,
      result_of (Chudnovsky.loop_body limit k (PyFloat s)) = Ok (PyFloat (s + t))
      /\ get_sign t = Z.odd k
      /\ (is_zero t = true <-> 13 <= k).
Proof.
  intros limit k s Hk Hl.
  destruct (chudnovsky_term_sign (Z.to_nat k) ltac:(lia)) as (t & Ht & Hs & Hz).
  exists t. split_conj.
  - unfold result_of, run. rewrite <- (Z2Nat.id k) by lia.
    rewrite chudnovsky_body_run by lia. cbn [snd]. rewrite Ht. reflexivity.
  - rewrite Hs, Z2Nat.id by lia. reflexivity.
  - rewrite Hz, Nat.leb_le. lia.
Qed.

Lemma chudnovsky_iteration_adds_alternating_term_witness :
  exists t,
    result_of (Chudnovsky.loop_body 1000 13 (PyFloat 1)) = Ok (PyFloat (1 + t))
    /\ get_sign t = Z.odd 13
    /\ (is_zero t = true <-> 13 <= 13).
Proof. apply (chudnovsky_iteration_adds_alternating_term 1000 13 1); lia. Defined.

(** X9. For [13 <= k <= 17] the Chudnovsky denominator
    [factorial(3*k) * (factorial(k)**3) * (640320**(3*k + 3/2))] overflows
    without raising: the integer product and the power are both finite
    doubles, and their float product is [inf]. *)
Theorem chudnovsky_denominator_overflows_silently :
  forall k : Z,
    13 <= k <= 17 ->
    exists d p,
      Py.as_float (PyInt (zfact (Z.to_nat (3 * k)) * zfact (Z.to_nat k) ^ 3))
      = Ok d
      /\ rbind (Py.truediv (PyInt 3) (PyInt 2))
               (fun half3 =>
                  rbind (Py.add (PyInt (3 * k)) half3)
                        (fun expo => Py.pow (PyInt 640320) expo))
         = Ok (PyFloat p)
      /\ (d <? infinity)%float = true
      /\ (p <? infinity)%float = true
      /\ Py.mul (PyInt (zfact (Z.to_nat (3 * k)) * zfact (Z.to_nat k) ^ 3))
                (PyFloat p)
         = Ok (PyFloat infinity).
Proof.
  intros k Hk.
  assert (C : k = 13 \/ k = 14 \/ k = 15 \/ k = 16 \/ k = 17) by lia.
  destruct C as [->|[->|[->|[->| ->]]]];
    do 2 eexists; split_conj; vm_compute; reflexivity.
Qed.

Lemma chudnovsky_denominator_overflows_silently_witness :
  exists d p,
    Py.as_float (PyInt (zfact (Z.to_nat (3 * 13)) * zfact (Z.to_nat 13) ^ 3))
    = Ok d
    /\ rbind (Py.truediv (PyInt 3) (PyInt 2))
             (fun half3 =>
                rbind (Py.add (PyInt (3 * 13)) half3)
                      (fun expo => Py.pow (PyInt 640320) expo))
       = Ok (PyFloat p)
    /\ (d <? infinity)%float = true
    /\ (p <? infinity)%float = true
    /\ Py.mul (PyInt (zfact (Z.to_nat (3 * 13)) * zfact (Z.to_nat 13) ^ 3))
              (PyFloat p)
       = Ok (PyFloat infinity).
Proof. apply (chudnovsky_denominator_overflows_silently 13). lia. Defined.

(** ** The accumulator after the loop *)

Lemma ramanujan_sum_range m :
  (1 <= m)%nat ->
  exists s,
    Ramanujan.series_sum m = Ok s
    /\ (1103 <=? s)%float = true /\ (s <=? 1103.0001)%float = true.
Proof.
  intros Hm.
  assert (T : forall j, (1 <= j <= 3)%nat ->
                exists s, Ramanujan.series_sum j = Ok s
                          /\ (1103 <=? s)%float = true
                          /\ (s <=? 1103.0001)%float = true).
  { intros j Hj.
    do 4 (destruct j as [|j];
          [first [lia | eexists; split_conj; vm_compute; reflexivity]|]).
    lia. }
  destruct (le_lt_dec 3 m) as [Hbig|Hsmall].
  - rewrite ramanujan_sum_saturates by assumption. apply T. lia.
  - apply T. lia.
Qed.

Lemma chudnovsky_sum_range m :
  (1 <= m <= 18)%nat ->
  exists s,
    Chudnovsky.series_sum m = Ok s
    /\ (0.0265 <=? s)%float = true /\ (s <=? 0.0266)%float = true.
Proof.
  intros Hm.
  do 19 (destruct m as [|m];
         [first [lia | eexists; split_conj; vm_compute; reflexivity]|]).
  lia.
Qed.

(** X10. After the loop [sum_result] is a float as soon as one iteration
    has run: between [1103] and [1103.0001] for the Ramanujan-Sato
    estimator and every term count [n >= 1], between [0.0265] and [0.0266]
    for the Chudnovsky estimator and [1 <= n <= 18]; so the final reciprocal
    never divides by zero there. *)
Theorem sum_result_after_the_loop :
  (forall (limit : nat) (n : Z) (tr : trace),
      1 <= n -> 4 * (n - 1) < Z.of_nat limit ->
      exists s,
        snd (for_range (Ramanujan.loop_body limit) n (PyInt 0) tr)
        = Ok (PyFloat s)
        /\ (1103 <=? s)%float = true /\ (s <=? 1103.0001)%float = true)
  /\ (forall (limit : nat) (n : Z) (tr : trace),
         1 <= n <= 18 -> 6 * (n - 1) < Z.of_nat limit ->
         exists s,
           snd (for_range (Chudnovsky.loop_body limit) n (PyInt 0) tr)
           = Ok (PyFloat s)
           /\ (0.0265 <=? s)%float = true /\ (s <=? 0.0266)%float = true).
Proof.
  split; intros limit n tr Hn Hl.
  - destruct (ramanujan_sum_range (Z.to_nat n) ltac:(lia)) as (s & Hs & Hb).
    exists s. split; [|exact Hb].
    rewrite (for_range_run _ Ramanujan.term Ramanujan.iter_events (Z.to_nat n));
      [|intros k acc tr' Hk; apply ramanujan_body_run; lia|lia].
    cbn [snd]. fold (Ramanujan.series_sum (Z.to_nat n)). rewrite Hs.
    destruct (Z.to_nat n) eqn:E; [lia|reflexivity].
  - destruct (chudnovsky_sum_range (Z.to_nat n) ltac:(lia)) as (s & Hs & Hb).
    exists s. split; [|exact Hb].
    rewrite (for_range_run _ Chudnovsky.term Chudnovsky.iter_events (Z.to_nat n));
      [|intros k acc tr' Hk; apply chudnovsky_body_run; lia|lia].
    cbn [snd]. fold (Chudnovsky.series_sum (Z.to_nat n)). rewrite Hs.
    destruct (Z.to_nat n) eqn:E; [lia|reflexivity].
Qed.

Lemma sum_result_after_the_loop_witness :
  (exists s,
      snd (for_range (Ramanujan.loop_body 1000) 8 (PyInt 0) [])
      = Ok (PyFloat s)
      /\ (1103 <=? s)%float = true /\ (s <=? 1103.0001)%float = true)
  /\ (exists s,
         snd (for_range (Chudnovsky.loop_body 1000) 8 (PyInt 0) [])
         = Ok (PyFloat s)
         /\ (0.0265 <=? s)%float = true /\ (s <=? 0.0266)%float = true).
Proof.
  destruct sum_result_after_the_loop as (H1 & H2). split.
  - apply (H1 1000%nat 8 []); lia.
  - apply (H2 1000%nat 8 []); lia.
Defined.
